(** * chime_dash sidebar: value coercion, parameter assembly, download link

    A shallow embedding of [src/chime_dash/app/pages/sidebar.py]: the
    ordered input table [_INPUTS], [Sidebar.get_ordered_input_keys],
    [Sidebar.get_formated_values], [Sidebar.update_parameters] and
    [Sidebar.get_download_as_pdf_link], together with the parts of the
    Python runtime these functions rely on: truthiness, [==], true division
    by 100 on binary64 floats, [datetime.strptime] with the format
    [%Y-%m-%d], [str] of the values placed in the query string, and
    dictionaries that keep insertion order.

    Exceptions are results: a function that may raise returns [res A], and
    [x <- c ;; k] stops at the first [Raise]. The [Parameters] constructor,
    [parameters_serializer] and the runtime's [repr] of floats and of text
    are not part of the file and are taken as parameters. *)

From Stdlib Require Import ZArith List String Ascii Bool Lia.
From Stdlib Require Import Floats.PrimFloat Floats.SpecFloat Floats.FloatOps
  Floats.FloatAxioms.
From Stdlib Require Import DecimalString Uint63.
Import ListNotations.

Local Open Scope string_scope.
Local Open Scope Z_scope.
Set Warnings "-inexact-float,-register-all".

(** ** Python values and exceptions *)

Module Py.

(** The values a form callback can receive (JSON: null, booleans, numbers,
    text, arrays) and the [datetime.date] objects the coercion creates.
    Text is modelled as strings of 8-bit characters. *)
Inductive value : Type :=
| VNone
| VBool (b : bool)
| VInt (z : Z)
| VFloat (f : float)
| VStr (s : string)
| VList (l : list value)
| VDate (year month day : Z).

(** What the message of a [ValueError] raised under [datetime.strptime]
    is built from. *)
Inductive strptime_failure : Type :=
| DoesNotMatchFormat (data_string format : string)
| UnconvertedDataRemains (rest : string)
| YearOutOfRange (year : Z)
| MonthOutOfRange
| DayOutOfRangeForMonth.

Inductive exn : Type :=
| KeyError (key : string)
| ValueError (why : strptime_failure)
| TypeError (operation : string)
| OverflowError
| External (what : string).

Inductive res (A : Type) : Type :=
| Ok (a : A)
| Raise (e : exn).
Arguments Ok {A} a.
Arguments Raise {A} e.

Definition bind {A B} (c : res A) (k : A -> res B) : res B :=
  match c with
  | Ok a => k a
  | Raise e => Raise e
  end.

Definition raises {A} (c : res A) : Prop := exists e, c = Raise e.

(** Python truthiness, [bool(v)]. *)
Definition truthy (v : value) : bool :=
  match v with
  | VNone => false
  | VBool b => b
  | VInt z => negb (z =? 0)
  | VFloat f => negb (PrimFloat.eqb f 0%float)
  | VStr s => negb (String.eqb s EmptyString)
  | VList l => match l with [] => false | _ :: _ => true end
  | VDate _ _ _ => true
  end.

(** [v is None]. *)
Definition is_None (v : value) : bool :=
  match v with VNone => true | _ => false end.

(** Exact comparison of a float with an integer, as [float.__eq__] does it
    (no rounding of the integer). *)
Definition float_eq_int (f : float) (z : Z) : bool :=
  match Prim2SF f with
  | S754_zero _ => z =? 0
  | S754_finite s m e =>
      let mz := if s then Z.neg m else Z.pos m in
      if 0 <=? e then z =? mz * 2 ^ e
      else (mz mod 2 ^ (- e) =? 0) && (z =? mz / 2 ^ (- e))
  | _ => false
  end.

Definition int_of_bool (b : bool) : Z := if b then 1 else 0.

(** Python [a == b] on the modelled values; [bool] is a subclass of [int],
    so booleans compare with numbers by their integer value. *)
Fixpoint py_eq (a b : value) {struct a} : bool :=
  match a, b with
  | VNone, VNone => true
  | VBool x, VBool y => Z.eqb (int_of_bool x) (int_of_bool y)
  | VBool x, VInt y => Z.eqb (int_of_bool x) y
  | VInt x, VBool y => Z.eqb x (int_of_bool y)
  | VInt x, VInt y => Z.eqb x y
  | VBool x, VFloat g => float_eq_int g (int_of_bool x)
  | VInt x, VFloat g => float_eq_int g x
  | VFloat f, VBool y => float_eq_int f (int_of_bool y)
  | VFloat f, VInt y => float_eq_int f y
  | VFloat f, VFloat g => PrimFloat.eqb f g
  | VStr s, VStr t => String.eqb s t
  | VDate y m d, VDate y' m' d' => (y =? y') && (m =? m') && (d =? d')
  | VList l, VList l' =>
      (fix list_eq (xs ys : list value) {struct xs} : bool :=
         match xs, ys with
         | [], [] => true
         | x :: xs', y :: ys' => py_eq x y && list_eq xs' ys'
         | _, _ => false
         end) l l'
  | _, _ => false
  end.

(** [int / int]: the correctly rounded quotient, [OverflowError] when it
    does not fit a float. *)
Definition SF_of_int (z : Z) : spec_float :=
  match z with
  | Z0 => S754_zero false
  | Zpos p => S754_finite false p 0
  | Zneg p => S754_finite true p 0
  end.

Definition int_truediv (a b : Z) : res float :=
  match SFdiv prec emax (SF_of_int a) (SF_of_int b) with
  | S754_infinity _ => Raise OverflowError
  | q => Ok (SF2Prim q)
  end.

(** [v / 100] as written in [update_parameters]. *)
Definition truediv_100 (v : value) : res value :=
  match v with
  | VBool b => bind (int_truediv (int_of_bool b) 100) (fun q => Ok (VFloat q))
  | VInt z => bind (int_truediv z 100) (fun q => Ok (VFloat q))
  | VFloat f => Ok (VFloat (f / 100)%float)
  | VNone | VStr _ | VList _ | VDate _ _ _ => Raise (TypeError "/")
  end.

End Py.
Import Py.

Notation "x <- c ;; k" := (bind c (fun x => k))
  (at level 61, c at next level, right associativity).

(** ** Text: decimal digits, [%d] formatting, [str.join] *)

Module Text.

Definition code (c : ascii) : Z := Z.of_nat (nat_of_ascii c).

Definition in_range (lo hi c : ascii) : bool :=
  (code lo <=? code c) && (code c <=? code hi).

Definition is_digit (c : ascii) : bool := in_range "0" "9" c.

Definition digit_value (c : ascii) : Z := code c - 48.

Definition digit_chars : list ascii :=
  ["0"; "1"; "2"; "3"; "4"; "5"; "6"; "7"; "8"; "9"]%char.

Fixpoint zeros (n : nat) : string :=
  match n with
  | O => EmptyString
  | S n' => String "0" (zeros n')
  end.

(** [str(z)] for an integer. *)
Definition str_int (z : Z) : string := NilZero.string_of_int (Z.to_int z).

(** ["%0<width>d" % z]. *)
Definition format_0d (width : nat) (z : Z) : string :=
  if z <? 0 then
    let digits := str_int (- z) in
    String "-" (zeros (width - 1 - String.length digits) ++ digits)
  else
    let digits := str_int z in
    zeros (width - String.length digits) ++ digits.

(** [sep.join(parts)]. *)
Fixpoint join (sep : string) (parts : list string) : string :=
  match parts with
  | [] => EmptyString
  | [p] => p
  | p :: rest => p ++ sep ++ join sep rest
  end.

End Text.
Import Text.

(** ** [datetime.date] and [datetime.strptime(value, "%Y-%m-%d").date()] *)

Module Datetime.

Definition is_leap (year : Z) : bool :=
  (year mod 4 =? 0) && (negb (year mod 100 =? 0) || (year mod 400 =? 0)).

Definition days_in_month (year month : Z) : Z :=
  if month =? 2 then (if is_leap year then 29 else 28)
  else if (month =? 4) || (month =? 6) || (month =? 9) || (month =? 11) then 30
  else 31.

(** The constructor [date(year, month, day)] with its range checks. *)
Definition date_new (year month day : Z) : res value :=
  if negb ((1 <=? year) && (year <=? 9999)) then
    Raise (ValueError (YearOutOfRange year))
  else if negb ((1 <=? month) && (month <=? 12)) then
    Raise (ValueError MonthOutOfRange)
  else if negb ((1 <=? day) && (day <=? days_in_month year month)) then
    Raise (ValueError DayOutOfRangeForMonth)
  else Ok (VDate year month day).

(** [date.isoformat()], which is also [str(date)]. *)
Definition isoformat (year month day : Z) : string :=
  format_0d 4 year ++ "-" ++ format_0d 2 month ++ "-" ++ format_0d 2 day.

(** The regular expression [_strptime] compiles for [%Y-%m-%d]:
    [(?P<Y>\d\d\d\d)-(?P<m>1[0-2]|0[1-9]|[1-9])-(?P<d>3[0-1]|[1-2]\d|0[1-9]|[1-9]| [1-9])].
    Each piece returns its matches in the order a backtracking matcher tries
    them, with the text left over; the first match of the whole expression
    is the one [re.match] reports. On 8-bit text [\d] is a decimal digit
    [0-9]; [[1-2]\d] is written as its two cases. *)
Definition re_Y (s : string) : list (Z * string) :=
  match s with
  | String a (String b (String c (String d rest))) =>
      if is_digit a && is_digit b && is_digit c && is_digit d
      then [(1000 * digit_value a + 100 * digit_value b
             + 10 * digit_value c + digit_value d, rest)]
      else []
  | _ => []
  end.

Definition re_lit (c : ascii) (s : string) : list string :=
  match s with
  | String a rest => if Ascii.eqb a c then [rest] else []
  | EmptyString => []
  end.

(** [x[lo-hi]] with a fixed first character. *)
Definition re_two (x lo hi : ascii) (s : string) : list (Z * string) :=
  match s with
  | String a (String b rest) =>
      if Ascii.eqb a x && in_range lo hi b
      then [(if Ascii.eqb x " " then digit_value b
             else 10 * digit_value a + digit_value b, rest)]
      else []
  | _ => []
  end.

(** [[1-9]]. *)
Definition re_one (s : string) : list (Z * string) :=
  match s with
  | String a rest => if in_range "1" "9" a then [(digit_value a, rest)] else []
  | EmptyString => []
  end.

Definition re_m (s : string) : list (Z * string) :=
  re_two "1" "0" "2" s ++ re_two "0" "1" "9" s ++ re_one s.

Definition re_d (s : string) : list (Z * string) :=
  re_two "3" "0" "1" s ++ re_two "1" "0" "9" s ++ re_two "2" "0" "9" s
  ++ re_two "0" "1" "9" s ++ re_one s ++ re_two " " "1" "9" s.

Definition format_regex (s : string) : list (Z * Z * Z * string) :=
  flat_map (fun '(y, s1) =>
  flat_map (fun s2 =>
  flat_map (fun '(m, s3) =>
  flat_map (fun s4 =>
  map (fun '(d, s5) => (y, m, d, s5)) (re_d s4))
  (re_lit "-" s3)) (re_m s2)) (re_lit "-" s1)) (re_Y s).

(** [datetime.strptime(value, "%Y-%m-%d").date()]. *)
Definition strptime_date (value : value) : res Py.value :=
  match value with
  | VStr data_string =>
      match format_regex data_string with
      | [] => Raise (ValueError (DoesNotMatchFormat data_string "%Y-%m-%d"))
      | (y, m, d, rest) :: _ =>
          if negb (String.eqb rest EmptyString)
          then Raise (ValueError (UnconvertedDataRemains rest))
          else date_new y m d
      end
  | _ => Raise (TypeError "strptime() argument 1 must be str")
  end.

End Datetime.
Import Datetime.

(** ** [str] and [repr] *)

Module Str.
Section Rendering.

(** [repr] of a float (shortest decimal that reads back) and of a text
    (quoting and escapes) belong to the runtime and are left abstract. *)
Variable repr_float : float -> string.
Variable repr_str : string -> string.

Fixpoint py_repr (v : value) : string :=
  match v with
  | VNone => "None"
  | VBool b => if b then "True" else "False"
  | VInt z => str_int z
  | VFloat f => repr_float f
  | VStr s => repr_str s
  | VList l => "[" ++ join ", " (map py_repr l) ++ "]"
  | VDate y m d =>
      "datetime.date(" ++ str_int y ++ ", " ++ str_int m ++ ", "
      ++ str_int d ++ ")"
  end.

(** [str(v)], which is what ["{val}".format(val=v)] inserts. *)
Definition py_str (v : value) : string :=
  match v with
  | VStr s => s
  | VDate y m d => isoformat y m d
  | _ => py_repr v
  end.

End Rendering.
End Str.
Import Str.

(** ** Insertion-ordered dictionaries *)

Module Dict.

(** A Python [dict] with text keys: the items in insertion order, every key
    at most once. *)
Definition dict : Type := list (string * value).

Fixpoint get (d : dict) (key : string) : option value :=
  match d with
  | [] => None
  | (k, v) :: rest => if String.eqb k key then Some v else get rest key
  end.

(** [d[key]]. *)
Definition getitem (d : dict) (key : string) : res value :=
  match get d key with
  | Some v => Ok v
  | None => Raise (KeyError key)
  end.

(** [d.get(key, default)]. *)
Definition get_default (d : dict) (key : string) (default : value) : value :=
  match get d key with
  | Some v => v
  | None => default
  end.

(** [d[key] = v]: an existing key keeps its place, a new one goes last. *)
Fixpoint setitem (d : dict) (key : string) (v : value) : dict :=
  match d with
  | [] => [(key, v)]
  | (k, w) :: rest =>
      if String.eqb k key then (k, v) :: rest
      else (k, w) :: setitem rest key v
  end.

(** [dict(pairs)]. *)
Definition of_pairs (pairs : list (string * value)) : dict :=
  fold_left (fun d kv => setitem d (fst kv) (snd kv)) pairs [].

Definition keys (d : dict) : list string := map fst d.

(** [d.items()]. *)
Definition items (d : dict) : list (string * value) := d.

End Dict.
Import Dict.

(** ** The input table *)

Inductive kind : Type := header | number | date | switch | link.

Definition kind_eqb (a b : kind) : bool :=
  match a, b with
  | header, header | number, number | date, date
  | switch, switch | link, link => true
  | _, _ => false
  end.

(** One entry of [_INPUTS]. The attributes that only the widget templates
    read (size, default value, initially visible month) are left out; the
    [datetime] bounds of the date pickers are kept as their dates. *)
Record input_spec : Type := {
  type : kind;
  min : option value;
  max : option value;
  step : option value;
  percent : bool;
  min_date_allowed : option value;
  max_date_allowed : option value
}.

Definition FLOAT_INPUT_MIN : value := VFloat 0.001%float.
Definition FLOAT_INPUT_STEP : value := VStr "any".

Definition header_spec : input_spec :=
  {| type := header; min := None; max := None; step := None;
     percent := false; min_date_allowed := None; max_date_allowed := None |}.

Definition number_spec (lo : value) (st : value) : input_spec :=
  {| type := number; min := Some lo; max := None; step := Some st;
     percent := false; min_date_allowed := None; max_date_allowed := None |}.

Definition percent_spec (lo : value) : input_spec :=
  {| type := number; min := Some lo; max := Some (VFloat 100%float);
     step := Some FLOAT_INPUT_STEP;
     percent := true; min_date_allowed := None; max_date_allowed := None |}.

Definition date_spec : input_spec :=
  {| type := date; min := None; max := None; step := None; percent := false;
     min_date_allowed := Some (VDate 2019 10 1);
     max_date_allowed := Some (VDate 2021 12 31) |}.

Definition switch_spec : input_spec :=
  {| type := switch; min := None; max := None; step := None;
     percent := false; min_date_allowed := None; max_date_allowed := None |}.

Definition link_spec : input_spec :=
  {| type := link; min := None; max := None; step := None;
     percent := false; min_date_allowed := None; max_date_allowed := None |}.

Definition _INPUTS : list (string * input_spec) :=
  [ ("hospital_parameters", header_spec);
    ("population", number_spec (VInt 1) (VInt 1));
    ("market_share", percent_spec FLOAT_INPUT_MIN);
    ("current_hospitalized", number_spec (VInt 0) (VInt 1));
    ("spread_parameters", header_spec);
    ("date_first_hospitalized", date_spec);
    ("doubling_time", number_spec FLOAT_INPUT_MIN FLOAT_INPUT_STEP);
    ("relative_contact_rate", percent_spec (VFloat 0%float));
    ("severity_parameters", header_spec);
    ("hospitalized_rate", percent_spec (VFloat 0%float));
    ("icu_rate", percent_spec (VFloat 0%float));
    ("ventilated_rate", percent_spec (VFloat 0%float));
    ("infectious_days", number_spec (VInt 0) (VInt 1));
    ("hospitalized_los", number_spec (VInt 0) (VInt 1));
    ("icu_los", number_spec (VInt 0) (VInt 1));
    ("ventilated_los", number_spec (VInt 0) (VInt 1));
    ("display_parameters", header_spec);
    ("n_days", number_spec (VInt 30) (VInt 1));
    ("current_date", date_spec);
    ("max_y_axis_value", number_spec (VInt 10) (VInt 10));
    ("show_tables", switch_spec);
    ("show_tool_details", switch_spec);
    ("download_as_pdf_link", link_spec) ].

(** ** Sidebar *)

Module Sidebar.

Definition DOWNLOAD_AS_PDF_URL : string := "/download-as-pdf".

(** [type not in ("header", "link")]. *)
Definition is_interactive (k : kind) : bool :=
  negb (kind_eqb k header || kind_eqb k link).

Definition get_ordered_input_keys : list string :=
  map fst (filter (fun entry => is_interactive (type (snd entry))) _INPUTS).

(** The switch branch: [value = False], then [value = True] when the
    raw value [== [True]]. *)
Definition coerce_switch (raw : value) : value :=
  VBool (py_eq raw (VList [VBool true])).

(** The date branch:
    [datetime.strptime(value, "%Y-%m-%d").date() if value else value]. *)
Definition coerce_date (value : value) : res Py.value :=
  if truthy value then strptime_date value else Ok value.

(** The [for key in _INPUTS] loop of [get_formated_values], over the
    entries still to visit. *)
Fixpoint coerce_entries (entries : list (string * input_spec)) (result : dict)
  : res dict :=
  match entries with
  | [] => Ok result
  | (key, spec) :: rest =>
      match type spec with
      | switch =>
          raw <- getitem result key ;;
          coerce_entries rest (setitem result key (coerce_switch raw))
      | date =>
          value <- getitem result key ;;
          coerced <- coerce_date value ;;
          coerce_entries rest (setitem result key coerced)
      | _ => coerce_entries rest result
      end
  end.

Definition get_formated_values (input_values : list value) : res dict :=
  coerce_entries _INPUTS
    (of_pairs (combine get_ordered_input_keys input_values)).

(** Modelled from the spec: [Disposition] of [penn_chime.parameters], which
    is not under src/; the glossary describes it as a (rate, length-of-stay)
    pair, built here from its two positional arguments. *)
Record Disposition : Type := { rate : value; days : value }.

(** The keyword arguments [update_parameters] hands to [Parameters]. *)
Record Parameters_kwargs : Type := {
  population : value;
  current_hospitalized : value;
  date_first_hospitalized : value;
  doubling_time : value;
  hospitalized : Disposition;
  icu : Disposition;
  infectious_days : value;
  market_share : value;
  n_days : value;
  relative_contact_rate : value;
  ventilated : Disposition;
  max_y_axis : value
}.

(** The argument expressions of the [Parameters(...)] call in
    [update_parameters], evaluated in the order they are written. *)
Definition update_parameters_kwargs (inputs_dict : dict)
  : res Parameters_kwargs :=
  cond <- getitem inputs_dict "doubling_time" ;;
  dt <- (if truthy cond then getitem inputs_dict "doubling_time"
         else Ok VNone) ;;
  dfh <- (if negb (truthy dt) then getitem inputs_dict "date_first_hospitalized"
          else Ok VNone) ;;
  population_ <- getitem inputs_dict "population" ;;
  current_hospitalized_ <- getitem inputs_dict "current_hospitalized" ;;
  hospitalized_rate <- getitem inputs_dict "hospitalized_rate" ;;
  hospitalized_rate_100 <- truediv_100 hospitalized_rate ;;
  hospitalized_los <- getitem inputs_dict "hospitalized_los" ;;
  icu_rate <- getitem inputs_dict "icu_rate" ;;
  icu_rate_100 <- truediv_100 icu_rate ;;
  icu_los <- getitem inputs_dict "icu_los" ;;
  infectious_days_ <- getitem inputs_dict "infectious_days" ;;
  market_share_ <- getitem inputs_dict "market_share" ;;
  market_share_100 <- truediv_100 market_share_ ;;
  n_days_ <- getitem inputs_dict "n_days" ;;
  relative_contact_rate_ <- getitem inputs_dict "relative_contact_rate" ;;
  relative_contact_rate_100 <- truediv_100 relative_contact_rate_ ;;
  ventilated_rate <- getitem inputs_dict "ventilated_rate" ;;
  ventilated_rate_100 <- truediv_100 ventilated_rate ;;
  ventilated_los <- getitem inputs_dict "ventilated_los" ;;
  Ok {| population := population_;
        current_hospitalized := current_hospitalized_;
        date_first_hospitalized := dfh;
        doubling_time := dt;
        hospitalized :=
          {| rate := hospitalized_rate_100; days := hospitalized_los |};
        icu := {| rate := icu_rate_100; days := icu_los |};
        infectious_days := infectious_days_;
        market_share := market_share_100;
        n_days := n_days_;
        relative_contact_rate := relative_contact_rate_100;
        ventilated :=
          {| rate := ventilated_rate_100; days := ventilated_los |};
        max_y_axis := get_default inputs_dict "max_y_axis_value" VNone |}.

Section Callbacks.

(** The collaborators of the page that are not part of this file: the
    [Parameters] constructor and [parameters_serializer], each of which may
    raise, and the runtime's [repr] of floats and of text. *)
Context {Pars Serialized : Type}.
Variable Parameters : Parameters_kwargs -> res Pars.
Variable parameters_serializer : Pars -> res Serialized.
Variable repr_float : float -> string.
Variable repr_str : string -> string.

Definition update_parameters (input_values : list value)
  : res (list Serialized) :=
  inputs_dict <- get_formated_values input_values ;;
  kwargs <- update_parameters_kwargs inputs_dict ;;
  pars <- Parameters kwargs ;;
  serialized <- parameters_serializer pars ;;
  Ok [serialized].

(** The list comprehension of [get_download_as_pdf_link]. *)
Definition query_pairs (inputs_dict : dict) : list string :=
  map (fun item => fst item ++ "=" ++ py_str repr_float repr_str (snd item))
    (filter
       (fun item =>
          negb (existsb (String.eqb (fst item)) ["model"; "pars"])
          && negb (is_None (snd item)))
       (items inputs_dict)).

(** The url expression of [get_download_as_pdf_link], for the class
    attribute [base] and the coerced values. *)
Definition download_url (base : string) (inputs_dict : dict) : string :=
  base ++ "?" ++ join "&" (query_pairs inputs_dict).

Definition get_download_as_pdf_link (input_values : list value)
  : res (list string) :=
  inputs_dict <- get_formated_values input_values ;;
  Ok [download_url DOWNLOAD_AS_PDF_URL inputs_dict].

End Callbacks.

(** *** The callbacks wired in [__init__] *)

(** [_PROPERTY_OUTPUT_MAP]: which property of a widget carries its value. *)
Definition _PROPERTY_OUTPUT_MAP : list (kind * string) :=
  [ (number, "value"); (date, "date") ].

(** [_PROPERTY_OUTPUT_MAP.get(type, "value")]. *)
Definition property_output (k : kind) : string :=
  match find (fun entry => kind_eqb (fst entry) k) _PROPERTY_OUTPUT_MAP with
  | Some entry => snd entry
  | None => "value"
  end.

(** The [changed_elements] of [__init__]: an ordered dictionary from the
    interactive keys to the property read from their widget, listed here
    as its items (the keys of [_INPUTS] are distinct). *)
Definition changed_elements : list (string * string) :=
  map (fun entry => (fst entry, property_output (type (snd entry))))
    (filter (fun entry => is_interactive (type (snd entry))) _INPUTS).

Inductive callback_fn : Type :=
| fn_update_parameters
| fn_get_download_as_pdf_link.

(** The keyword arguments of a [ChimeCallback(...)] call. *)
Module ChimeCallback.
Record t : Type := {
  changed_elements : list (string * string);
  dom_updates : list (string * string);
  callback_fn : Sidebar.callback_fn
}.
End ChimeCallback.

Definition input_change_callback : ChimeCallback.t :=
  {| ChimeCallback.changed_elements := changed_elements;
     ChimeCallback.dom_updates := [("pars", "children")];
     ChimeCallback.callback_fn := fn_update_parameters |}.

Definition pdf_print_callback : ChimeCallback.t :=
  {| ChimeCallback.changed_elements := changed_elements;
     ChimeCallback.dom_updates := [("download_as_pdf_link", "href")];
     ChimeCallback.callback_fn := fn_get_download_as_pdf_link |}.

(** The callbacks [__init__] hands to the base class. *)
Definition callbacks : list ChimeCallback.t :=
  [ input_change_callback; pdf_print_callback ].

(** A constructor that accepts every argument list and hands it back, and
    a serializer that does the same, to observe in the examples what
    [update_parameters] passes on. They stand for no code of the repository:
    the [Parameters] class of [penn_chime.parameters], and whatever checks
    it makes, is not part of this file, and the statements below hold for
    every constructor. *)
Definition Parameters_record (kwargs : Parameters_kwargs)
  : res Parameters_kwargs := Ok kwargs.

Definition serializer_id (pars : Parameters_kwargs) : res Parameters_kwargs :=
  Ok pars.

End Sidebar.
Import Sidebar.

(** ** Vocabulary of the statements *)

(** The raw value a row of form values holds for a key: rows are aligned
    with [get_ordered_input_keys] by position. *)
Definition raw_value (input_values : list value) (key : string)
  : option value :=
  get (combine get_ordered_input_keys input_values) key.

Definition keys_of_kind (k : kind) : list string :=
  map fst (filter (fun entry => kind_eqb (type (snd entry)) k) _INPUTS).

Definition percent_keys : list string :=
  map fst (filter (fun entry => percent (snd entry)) _INPUTS).

(** Every date-kind raw value of the row is falsy or parses. *)
Definition dates_coercible (input_values : list value) : bool :=
  forallb
    (fun key =>
       match raw_value input_values key with
       | Some v => match coerce_date v with Ok _ => true | Raise _ => false end
       | None => false
       end)
    (keys_of_kind date).

(** The text is one [strptime] accepts for [%Y-%m-%d]. *)
Definition parses (s : string) : bool :=
  match strptime_date (VStr s) with
  | Ok _ => true
  | Raise _ => false
  end.

(** A ten-character text [YYYY-MM-DD] of decimal digits that names a day of
    the calendar [date] covers (years 1 to 9999). *)
Definition is_iso_date (s : string) : bool :=
  match s with
  | String y1 (String y2 (String y3 (String y4 (String "-"
      (String m1 (String m2 (String "-" (String d1 (String d2
        EmptyString)))))))))
    =>
      let year := 1000 * digit_value y1 + 100 * digit_value y2
                  + 10 * digit_value y3 + digit_value y4 in
      let month := 10 * digit_value m1 + digit_value m2 in
      let day := 10 * digit_value d1 + digit_value d2 in
      forallb is_digit [y1; y2; y3; y4; m1; m2; d1; d2]
      && (1 <=? year) && (1 <=? month) && (month <=? 12)
      && (1 <=? day) && (day <=? days_in_month year month)
  | _ => false
  end.

(** A raw date value as the date picker sends it: absent, empty, or an ISO
    date. *)
Definition iso_or_empty (v : value) : bool :=
  match v with
  | VNone => true
  | VStr s => String.eqb s EmptyString || is_iso_date s
  | _ => false
  end.

Definition dates_iso_or_empty (input_values : list value) : bool :=
  forallb
    (fun key =>
       match raw_value input_values key with
       | Some v => iso_or_empty v
       | None => false
       end)
    (keys_of_kind date).

(** The entry of [_INPUTS] for a key. *)
Definition input_spec_of (key : string) : option input_spec :=
  option_map snd
    (find (fun entry => String.eqb (fst entry) key) _INPUTS).


(** The query of the link as the specification words it: one [key=value]
    per entry, in the order of the entries, leaving out the transient keys
    [model] and [pars] and every entry whose value is null. *)
Fixpoint query_of_entries
  (repr_float : float -> string) (repr_str : string -> string)
  (entries : list (string * value)) : list string :=
  match entries with
  | [] => []
  | (key, v) :: rest =>
      if String.eqb key "model" || String.eqb key "pars"
      then query_of_entries repr_float repr_str rest
      else
        match v with
        | VNone => query_of_entries repr_float repr_str rest
        | _ => (key ++ "=" ++ py_str repr_float repr_str v)
               :: query_of_entries repr_float repr_str rest
        end
  end.

(** The same query read off the table: the interactive keys in table order,
    each with the value the mapping holds for it. *)
Definition query_in_table_order
  (repr_float : float -> string) (repr_str : string -> string)
  (m : dict) : list string :=
  flat_map
    (fun key =>
       match get m key with
       | Some VNone | None => []
       | Some v => [key ++ "=" ++ py_str repr_float repr_str v]
       end)
    get_ordered_input_keys.

(** Stand-ins for the two renderings left abstract, for the examples; none
    of the examples renders a float or a text inside a list. *)
Definition float_placeholder (f : float) : string := "<float>".
Definition text_unquoted (s : string) : string := s.

(** A row of raw values as the form sends it, used in the examples. *)
Definition sample_row : list value :=
  [ VInt 3600000; VFloat 15%float; VInt 69; VStr "2020-03-01";
    VFloat 4.5%float; VFloat 30%float; VFloat 8%float; VFloat 0.75%float;
    VFloat 0.5%float; VInt 14; VInt 7; VInt 9; VInt 10; VInt 30;
    VStr "2021-03-15"; VNone; VList []; VList [VBool true] ].

(** A row without floats, with an empty date, no axis cap and a switch
    left off. *)
Definition plain_row : list value :=
  [ VInt 3600000; VInt 15; VInt 69; VStr "2020-03-01"; VNone; VInt 30;
    VInt 8; VInt 1; VInt 1; VInt 14; VInt 7; VInt 9; VInt 10; VInt 30;
    VStr EmptyString; VNone; VList []; VList [VBool true] ].

(** The row with the raw value at position [i] replaced by [v]. *)
Fixpoint with_value (i : nat) (v : value) (row : list value) : list value :=
  match row, i with
  | [], _ => []
  | _ :: rest, O => v :: rest
  | x :: rest, S i' => x :: with_value i' v rest
  end.

(** The keys [get_formated_values] looks up in the zipped dictionary: the
    date and switch entries, in table order. *)
Definition looked_up_keys : list string :=
  map fst
    (filter
       (fun entry =>
          kind_eqb (type (snd entry)) date
          || kind_eqb (type (snd entry)) switch)
       _INPUTS).

(** The first looked-up key the row has no value for. *)
Definition first_unsupplied (input_values : list value) : option string :=
  find
    (fun key =>
       match raw_value input_values key with
       | Some _ => false
       | None => true
       end)
    looked_up_keys.

(** Every date-kind value the row does supply is falsy or parses. *)
Definition supplied_dates_coercible (input_values : list value) : bool :=
  forallb
    (fun key =>
       match raw_value input_values key with
       | Some v => match coerce_date v with Ok _ => true | Raise _ => false end
       | None => true
       end)
    (keys_of_kind date).

(** [v] is a [bool], an [int] or a [float]: what [/] accepts. *)
Definition is_number (v : value) : bool :=
  match v with
  | VBool _ | VInt _ | VFloat _ => true
  | VNone | VStr _ | VList _ | VDate _ _ _ => false
  end.

Definition is_text (v : value) : bool :=
  match v with
  | VStr _ => true
  | _ => false
  end.

(** The years, months and days [date] accepts. *)
Definition valid_date (year month day : Z) : bool :=
  (1 <=? year) && (year <=? 9999) && (1 <=? month) && (month <=? 12)
  && (1 <=? day) && (day <=? days_in_month year month).

(** One hundredth of a number, as the specification has it: the binary64
    quotient of the value by 100. A float is divided as a float. An integer
    [z] (a boolean counts as 0 or 1) is handed to the library's IEEE
    division as [z * 2^0] over [100 * 2^0], which rounds the exact quotient
    to the nearest float; there is none when the quotient is beyond the
    largest float. *)
Definition integer_hundredth (z : Z) : option float :=
  match SFdiv prec emax
          match z with
          | Z0 => S754_zero false
          | Zpos p => S754_finite false p 0
          | Zneg p => S754_finite true p 0
          end
          (S754_finite false 100 0)
  with
  | S754_infinity _ => None
  | q => Some (SF2Prim q)
  end.

Definition hundredth (v : value) : option float :=
  match v with
  | VFloat f => Some (f / 100)%float
  | VInt z => integer_hundredth z
  | VBool b => integer_hundredth (if b then 1 else 0)
  | VNone | VStr _ | VList _ | VDate _ _ _ => None
  end.

(** The float equal to an integer below 2^53 in size. *)
Definition float_of_small_int (z : Z) : float :=
  if z <? 0 then (- of_uint63 (Uint63.of_Z (- z)))%float
  else of_uint63 (Uint63.of_Z z).

(** Each of the five percent values of the mapping has a hundredth. *)
Definition percent_values_divide (m : dict) : bool :=
  forallb
    (fun key =>
       match get m key with
       | Some v => match hundredth v with Some _ => true | None => false end
       | None => false
       end)
    percent_keys.

(** The mappings [sample_row] and [plain_row] coerce to. *)
Definition sample_map : dict :=
  [ ("population", VInt 3600000); ("market_share", VFloat 15%float);
    ("current_hospitalized", VInt 69);
    ("date_first_hospitalized", VDate 2020 3 1);
    ("doubling_time", VFloat 4.5%float);
    ("relative_contact_rate", VFloat 30%float);
    ("hospitalized_rate", VFloat 8%float); ("icu_rate", VFloat 0.75%float);
    ("ventilated_rate", VFloat 0.5%float); ("infectious_days", VInt 14);
    ("hospitalized_los", VInt 7); ("icu_los", VInt 9);
    ("ventilated_los", VInt 10); ("n_days", VInt 30);
    ("current_date", VDate 2021 3 15); ("max_y_axis_value", VNone);
    ("show_tables", VBool false); ("show_tool_details", VBool true) ].

Definition plain_map : dict :=
  [ ("population", VInt 3600000); ("market_share", VInt 15);
    ("current_hospitalized", VInt 69);
    ("date_first_hospitalized", VDate 2020 3 1);
    ("doubling_time", VNone); ("relative_contact_rate", VInt 30);
    ("hospitalized_rate", VInt 8); ("icu_rate", VInt 1);
    ("ventilated_rate", VInt 1); ("infectious_days", VInt 14);
    ("hospitalized_los", VInt 7); ("icu_los", VInt 9);
    ("ventilated_los", VInt 10); ("n_days", VInt 30);
    ("current_date", VStr EmptyString); ("max_y_axis_value", VNone);
    ("show_tables", VBool false); ("show_tool_details", VBool true) ].

(** A row with neither a doubling time nor a first date, and the mapping
    it coerces to. *)
Definition no_spread_row : list value :=
  [ VInt 3600000; VFloat 15%float; VInt 69; VNone; VInt 0; VFloat 30%float;
    VFloat 8%float; VFloat 0.75%float; VFloat 0.5%float; VInt 14; VInt 7;
    VInt 9; VInt 10; VInt 30; VStr "2021-03-15"; VNone; VList [];
    VList [VBool true] ].

Definition no_spread_map : dict :=
  [ ("population", VInt 3600000); ("market_share", VFloat 15%float);
    ("current_hospitalized", VInt 69); ("date_first_hospitalized", VNone);
    ("doubling_time", VInt 0); ("relative_contact_rate", VFloat 30%float);
    ("hospitalized_rate", VFloat 8%float); ("icu_rate", VFloat 0.75%float);
    ("ventilated_rate", VFloat 0.5%float); ("infectious_days", VInt 14);
    ("hospitalized_los", VInt 7); ("icu_los", VInt 9);
    ("ventilated_los", VInt 10); ("n_days", VInt 30);
    ("current_date", VDate 2021 3 15); ("max_y_axis_value", VNone);
    ("show_tables", VBool false); ("show_tool_details", VBool true) ].

(** * Properties *)

(** ** Checks of the runtime model *)

Example truediv_100_float_8 :
  truediv_100 (VFloat 8%float) = Ok (VFloat 0.08%float).
Proof. reflexivity. Qed.

Example truediv_100_int_8 :
  truediv_100 (VInt 8) = Ok (VFloat 0.08%float).
Proof. vm_compute. reflexivity. Qed.

Example py_eq_one_true :
  py_eq (VList [VInt 1]) (VList [VBool true]) = true
  /\ py_eq (VList [VFloat 1%float]) (VList [VBool true]) = true
  /\ py_eq (VList [VStr "x"]) (VList [VBool true]) = false.
Proof. vm_compute. repeat split. Qed.

Example strptime_iso :
  strptime_date (VStr "2021-03-15") = Ok (VDate 2021 3 15)
  /\ isoformat 2021 3 15 = "2021-03-15".
Proof. vm_compute. split; reflexivity. Qed.

Example strptime_short_fields :
  strptime_date (VStr "2021-3-5") = Ok (VDate 2021 3 5)
  /\ isoformat 2021 3 5 = "2021-03-05".
Proof. vm_compute. split; reflexivity. Qed.

Example strptime_failures :
  strptime_date (VStr "15/03/2021")
    = Raise (ValueError (DoesNotMatchFormat "15/03/2021" "%Y-%m-%d"))
  /\ strptime_date (VStr "2021-03-155")
    = Raise (ValueError (UnconvertedDataRemains "5"))
  /\ strptime_date (VStr "2021-02-30")
    = Raise (ValueError DayOutOfRangeForMonth)
  /\ strptime_date (VStr "0000-01-01")
    = Raise (ValueError (YearOutOfRange 0)).
Proof. vm_compute. repeat split. Qed.


(** ** The error monad *)

Lemma bind_Ok_inv {A B} (c : res A) (k : A -> res B) (b : B) :
  bind c k = Ok b -> exists a, c = Ok a /\ k a = Ok b.
Proof.
  destruct c as [a|e]; simpl; intros H.
  - exists a. split; [reflexivity | exact H].
  - discriminate H.
Qed.

Lemma bind_raises_l {A B} (c : res A) (k : A -> res B) :
  raises c -> raises (bind c k).
Proof. intros [e ->]. exists e. reflexivity. Qed.

Lemma raises_not_Ok {A} (c : res A) (a : A) : raises c -> c <> Ok a.
Proof. intros [e ->]. discriminate. Qed.

Ltac inv_bind H :=
  let a := fresh "a" in
  let Ha := fresh "Ha" in
  apply bind_Ok_inv in H; destruct H as (a & Ha & H).

(** ** Dictionaries *)

Lemma get_setitem_same (d : dict) (k : string) (v : value) :
  get (setitem d k v) k = Some v.
Proof.
  induction d as [|[k' w] d IH]; simpl.
  - now rewrite String.eqb_refl.
  - destruct (String.eqb k' k) eqn:E; simpl; rewrite E; auto.
Qed.

Lemma get_setitem_other (d : dict) (k k' : string) (v : value) :
  k <> k' -> get (setitem d k v) k' = get d k'.
Proof.
  intros Hne. induction d as [|[k0 w] d IH]; simpl.
  - destruct (String.eqb k k') eqn:E; [apply String.eqb_eq in E; tauto | reflexivity].
  - destruct (String.eqb k0 k) eqn:E; simpl.
    + apply String.eqb_eq in E. subst k0.
      destruct (String.eqb k k') eqn:E'; [apply String.eqb_eq in E'; tauto | reflexivity].
    + destruct (String.eqb k0 k'); auto.
Qed.

Lemma get_None_not_In (d : dict) (k : string) :
  get d k = None <-> ~ In k (keys d).
Proof.
  induction d as [|[k' w] d IH]; simpl.
  - tauto.
  - destruct (String.eqb k' k) eqn:E.
    + apply String.eqb_eq in E. split; [discriminate | intros H; exfalso; auto].
    + apply String.eqb_neq in E. rewrite IH. tauto.
Qed.

Lemma keys_setitem_present (d : dict) (k : string) (v w : value) :
  get d k = Some w -> keys (setitem d k v) = keys d.
Proof.
  induction d as [|[k' u] d IH]; simpl; [discriminate|].
  destruct (String.eqb k' k) eqn:E; simpl; intros H.
  - reflexivity.
  - f_equal. apply IH, H.
Qed.

Lemma setitem_fresh (d : dict) (k : string) (v : value) :
  get d k = None -> setitem d k v = (d ++ [(k, v)])%list.
Proof.
  induction d as [|[k' u] d IH]; simpl; [reflexivity|].
  destruct (String.eqb k' k); [discriminate|].
  intros H. now rewrite IH.
Qed.

Lemma fold_setitem_fresh (pairs : list (string * value)) (acc : dict) :
  NoDup (keys acc ++ map fst pairs)%list ->
  fold_left (fun d kv => setitem d (fst kv) (snd kv)) pairs acc
  = (acc ++ pairs)%list.
Proof.
  revert acc. induction pairs as [|[k v] pairs IH]; intros acc Hnd; simpl.
  - now rewrite app_nil_r.
  - assert (Hk : get acc k = None).
    { apply get_None_not_In. intros Hin.
      apply NoDup_remove_2 in Hnd. apply Hnd.
      apply in_or_app. now left. }
    rewrite (setitem_fresh _ _ _ Hk), IH.
    + now rewrite <- app_assoc.
    + unfold keys in *. rewrite map_app, <- app_assoc. exact Hnd.
Qed.

(** [dict(zip(keys, values))] over distinct keys lists the pairs as zipped. *)
Lemma of_pairs_combine (ks : list string) (vs : list value) :
  NoDup ks -> of_pairs (combine ks vs) = combine ks vs.
Proof.
  intros Hnd. unfold of_pairs. rewrite fold_setitem_fresh; [reflexivity|].
  simpl. revert vs. induction Hnd as [|k ks Hk Hnd IH]; intros vs.
  - constructor.
  - destruct vs as [|v vs]; simpl; [constructor|].
    constructor; [|apply IH].
    intros Hin. apply Hk. clear -Hin.
    revert vs Hin. induction ks as [|k' ks IHks]; intros [|v vs]; simpl; try tauto.
    intros [->|H]; [now left | right; eauto].
Qed.

Lemma keys_combine (ks : list string) (vs : list value) :
  keys (combine ks vs) = firstn (List.length vs) ks.
Proof.
  revert vs. induction ks as [|k ks IH]; intros [|v vs]; simpl; try reflexivity.
  unfold keys in IH. now rewrite IH.
Qed.

(** [zip] stops at the shorter sequence. *)
Lemma combine_app_surplus {A B} (ks : list A) (vs extra : list B) :
  List.length vs = List.length ks ->
  combine ks (vs ++ extra)%list = combine ks vs.
Proof.
  revert vs. induction ks as [|k ks IH]; intros [|v vs]; simpl; try discriminate.
  - now destruct extra.
  - intros H. f_equal. apply IH. lia.
Qed.

(** ** The input table and the interactive keys *)

Lemma get_ordered_input_keys_eq :
  get_ordered_input_keys =
  [ "population"; "market_share"; "current_hospitalized";
    "date_first_hospitalized"; "doubling_time"; "relative_contact_rate";
    "hospitalized_rate"; "icu_rate"; "ventilated_rate"; "infectious_days";
    "hospitalized_los"; "icu_los"; "ventilated_los"; "n_days";
    "current_date"; "max_y_axis_value"; "show_tables"; "show_tool_details" ].
Proof. reflexivity. Qed.

Lemma NoDup_table_keys : NoDup (map fst _INPUTS).
Proof.
  simpl. repeat (constructor; [simpl; intuition discriminate|]). constructor.
Qed.

Lemma NoDup_get_ordered_input_keys : NoDup get_ordered_input_keys.
Proof.
  unfold get_ordered_input_keys.
  assert (H : forall (l : list (string * input_spec)) f,
             NoDup (map fst l) -> NoDup (map fst (filter f l))).
  { induction l as [|a l IH]; intros f Hnd; simpl; [constructor|].
    inversion Hnd as [|? ? Hin Hnd']; subst.
    destruct (f a); simpl; [constructor|]; auto.
    intros Hc. apply Hin. clear -Hc.
    induction l as [|b l IHl]; simpl in *; [tauto|].
    destruct (f b); simpl in *; tauto. }
  apply H, NoDup_table_keys.
Qed.

(** ** The coercion loop *)

(** The loop only overwrites values: the keys, and their order, stay. *)
Lemma coerce_entries_keys (entries : list (string * input_spec)) :
  forall d d', coerce_entries entries d = Ok d' -> keys d' = keys d.
Proof.
  induction entries as [|[key spec] entries IH]; intros d d' H; simpl in H.
  - now inversion H.
  - destruct (type spec); try (now apply IH).
    + inv_bind H. inv_bind H.
      apply IH in H. rewrite H.
      unfold getitem in Ha. destruct (get d key) eqn:E; [|discriminate].
      eapply keys_setitem_present, E.
    + inv_bind H.
      apply IH in H. rewrite H.
      unfold getitem in Ha. destruct (get d key) eqn:E; [|discriminate].
      eapply keys_setitem_present, E.
Qed.

(** A date or switch entry whose key has no value stops the loop. *)
Lemma coerce_entries_missing (entries : list (string * input_spec)) :
  forall d key spec,
    In (key, spec) entries ->
    type spec = date \/ type spec = switch ->
    get d key = None ->
    raises (coerce_entries entries d).
Proof.
  induction entries as [|[k s] entries IH]; intros d key spec Hin Hty Hget;
    [destruct Hin|].
  assert (Hstep : forall v w, get d k = Some w ->
                    k <> key -> raises (coerce_entries entries (setitem d k v))).
  { intros v w Hk Hne. destruct Hin as [Heq|Hin]; [congruence|].
    eapply IH; eauto. rewrite get_setitem_other; auto. }
  simpl. destruct (String.eqb k key) eqn:E.
  - apply String.eqb_eq in E. subst k.
    destruct (type s) eqn:Ts.
    3,4: apply bind_raises_l; unfold getitem; rewrite Hget; eexists; reflexivity.
    all: destruct Hin as [Heq|Hin];
      [inversion Heq; subst; destruct Hty; congruence | eapply IH; eauto].
  - apply String.eqb_neq in E.
    destruct (type s) eqn:Ts.
    3,4: unfold getitem; destruct (get d k) eqn:Hk;
      [simpl | eexists; reflexivity].
    3: destruct (coerce_date v);
      [simpl; eapply Hstep; eauto | eexists; reflexivity].
    3: eapply Hstep; eauto.
    all: destruct Hin as [Heq|Hin]; [inversion Heq; congruence | eapply IH; eauto].
Qed.

(** The loop on a full row of eighteen raw values, unfolded: the two date
    entries are coerced first, in table order, then the two switches. *)
Lemma get_formated_values_row
  (v0 v1 v2 v3 v4 v5 v6 v7 v8 v9 v10 v11 v12 v13 v14 v15 v16 v17 : value) :
  get_formated_values
    [v0; v1; v2; v3; v4; v5; v6; v7; v8; v9; v10; v11; v12; v13; v14; v15;
     v16; v17]
  = (dfh <- coerce_date v3 ;;
     cd <- coerce_date v14 ;;
     Ok [ ("population", v0); ("market_share", v1);
          ("current_hospitalized", v2); ("date_first_hospitalized", dfh);
          ("doubling_time", v4); ("relative_contact_rate", v5);
          ("hospitalized_rate", v6); ("icu_rate", v7);
          ("ventilated_rate", v8); ("infectious_days", v9);
          ("hospitalized_los", v10); ("icu_los", v11);
          ("ventilated_los", v12); ("n_days", v13); ("current_date", cd);
          ("max_y_axis_value", v15); ("show_tables", coerce_switch v16);
          ("show_tool_details", coerce_switch v17) ]).
Proof.
  unfold get_formated_values. cbn -[coerce_date coerce_switch].
  destruct (coerce_date v3) as [dfh|e]; [|reflexivity].
  cbn -[coerce_date coerce_switch].
  destruct (coerce_date v14) as [cd|e]; reflexivity.
Qed.

(** What stops the loop: a key without a value, or a date that does not
    coerce. *)
Lemma coerce_entries_Raise_inv (entries : list (string * input_spec)) :
  forall d e,
    coerce_entries entries d = Raise e ->
    (exists key, e = KeyError key /\ get d key = None)
    \/ (exists v, coerce_date v = Raise e).
Proof.
  induction entries as [|[k s] entries IH]; intros d e H; simpl in H;
    [discriminate|].
  assert (Hstep : forall v w, get d k = Some w ->
            coerce_entries entries (setitem d k v) = Raise e ->
            (exists key, e = KeyError key /\ get d key = None)
            \/ (exists v, coerce_date v = Raise e)).
  { intros v w Hk Hr. apply IH in Hr. destruct Hr as [(key & -> & Hn)|Hr]; auto.
    left. exists key. split; [reflexivity|].
    destruct (String.eqb k key) eqn:E.
    - apply String.eqb_eq in E. subst. rewrite get_setitem_same in Hn.
      discriminate.
    - apply String.eqb_neq in E. now rewrite get_setitem_other in Hn. }
  destruct (type s); try (now apply IH).
  - unfold getitem in H. destruct (get d k) eqn:Hk; simpl in H.
    + destruct (coerce_date v) eqn:Hc; simpl in H.
      * eapply Hstep; eauto.
      * inversion H; subst. right. eauto.
    + inversion H; subst. left. eauto.
  - unfold getitem in H. destruct (get d k) eqn:Hk; simpl in H.
    + eapply Hstep; eauto.
    + inversion H; subst. left. eauto.
Qed.

Lemma strptime_date_Raise_inv (v : value) (e : exn) :
  strptime_date v = Raise e ->
  (exists why, e = ValueError why) \/ (exists op, e = TypeError op).
Proof.
  unfold strptime_date, date_new.
  destruct v; try (intros H; inversion H; eauto).
  revert H. destruct (format_regex s) as [|[[[y m] d] rest] l].
  - intros H; inversion H; eauto.
  - repeat match goal with
           | |- context [if ?b then _ else _] => destruct b
           end; intros H; inversion H; eauto.
Qed.

Lemma coerce_date_Raise_inv (v : value) (e : exn) :
  coerce_date v = Raise e ->
  (exists why, e = ValueError why) \/ (exists op, e = TypeError op).
Proof.
  unfold coerce_date. destruct (truthy v); [apply strptime_date_Raise_inv|].
  discriminate.
Qed.

(** ** Rows of raw values *)

Lemma get_formated_values_unfold (input_values : list value) :
  get_formated_values input_values
  = coerce_entries _INPUTS
      (of_pairs (combine get_ordered_input_keys input_values)).
Proof. unfold get_formated_values. reflexivity. Qed.

Lemma row_inv (input_values : list value) :
  List.length input_values = List.length get_ordered_input_keys ->
  exists v0 v1 v2 v3 v4 v5 v6 v7 v8 v9 v10 v11 v12 v13 v14 v15 v16 v17,
    input_values =
    [v0; v1; v2; v3; v4; v5; v6; v7; v8; v9; v10; v11; v12; v13; v14; v15;
     v16; v17].
Proof.
  intros H.
  do 18 (destruct input_values as [|? input_values]; [discriminate H|]).
  destruct input_values; [|discriminate H].
  repeat eexists.
Qed.

Lemma initial_dict (input_values : list value) :
  of_pairs (combine get_ordered_input_keys input_values)
  = combine get_ordered_input_keys input_values.
Proof. apply of_pairs_combine, NoDup_get_ordered_input_keys. Qed.

(** Fewer values than keys: the last switch has no value, whatever came
    before. *)
Lemma short_row_raises (input_values : list value) :
  (List.length input_values < List.length get_ordered_input_keys)%nat ->
  raises (get_formated_values input_values).
Proof.
  intros Hlen. rewrite get_formated_values_unfold.
  eapply (coerce_entries_missing _ _ "show_tool_details" switch_spec).
  - simpl. intuition.
  - now right.
  - rewrite initial_dict. apply get_None_not_In. rewrite keys_combine.
    remember (List.length input_values) as n eqn:Hn. clear Hn.
    do 18 (destruct n as [|n]; [simpl; intuition discriminate|]).
    simpl in Hlen. lia.
Qed.

(** More values than keys: [zip] drops the surplus. *)
Lemma long_row_truncated (input_values : list value) :
  (List.length get_ordered_input_keys <= List.length input_values)%nat ->
  get_formated_values input_values
  = get_formated_values
      (firstn (List.length get_ordered_input_keys) input_values).
Proof.
  intros Hlen. rewrite !get_formated_values_unfold. f_equal. f_equal.
  rewrite <- (firstn_skipn (List.length get_ordered_input_keys) input_values)
    at 1.
  apply combine_app_surplus. rewrite length_firstn. lia.
Qed.

Lemma get_formated_values_keys (input_values : list value) (m : dict) :
  get_formated_values input_values = Ok m ->
  keys m = get_ordered_input_keys.
Proof.
  intros H.
  destruct (Nat.lt_ge_cases (List.length input_values)
              (List.length get_ordered_input_keys)) as [Hlt|Hge].
  - exfalso. eapply raises_not_Ok; [apply short_row_raises, Hlt | exact H].
  - rewrite get_formated_values_unfold in H. apply coerce_entries_keys in H.
    rewrite H, initial_dict, keys_combine. apply firstn_all2. exact Hge.
Qed.

Lemma dates_coercible_row
  (v0 v1 v2 v3 v4 v5 v6 v7 v8 v9 v10 v11 v12 v13 v14 v15 v16 v17 : value) :
  dates_coercible
    [v0; v1; v2; v3; v4; v5; v6; v7; v8; v9; v10; v11; v12; v13; v14; v15;
     v16; v17] = true ->
  exists dfh cd, coerce_date v3 = Ok dfh /\ coerce_date v14 = Ok cd.
Proof.
  unfold dates_coercible. cbn -[coerce_date].
  destruct (coerce_date v3) as [dfh|]; [|discriminate].
  destruct (coerce_date v14) as [cd|]; [|discriminate].
  eauto.
Qed.

(** ** Claims on the interactive keys and on the length of the row *)

(** C9 (amended). [get_ordered_input_keys] is the list of the keys of
    [_INPUTS] whose kind is neither header nor link, in table order (a
    constant: no state is read or written). For every row of raw values of
    that length whose date-kind values are falsy or parse, the coercion
    returns a mapping, and the keys of every mapping it returns are exactly
    the interactive keys, in that order. *)
Theorem interactive_keys_of_coerced_map :
  get_ordered_input_keys
  = map fst
      (filter
         (fun entry =>
            match type (snd entry) with
            | header | link => false
            | number | date | switch => true
            end) _INPUTS)
  /\ (forall key,
        In key get_ordered_input_keys <->
        exists spec, In (key, spec) _INPUTS
                     /\ type spec <> header /\ type spec <> link)
  /\ (forall input_values,
        List.length input_values = List.length get_ordered_input_keys ->
        dates_coercible input_values = true ->
        exists m, get_formated_values input_values = Ok m
                  /\ keys m = get_ordered_input_keys)
  /\ (forall input_values m,
        get_formated_values input_values = Ok m ->
        keys m = get_ordered_input_keys).
Proof.
  split; [reflexivity|]. split; [|split].
  - intros key. unfold get_ordered_input_keys. rewrite in_map_iff. split.
    + intros ([k spec] & <- & Hin). apply filter_In in Hin.
      destruct Hin as [Hin Hk]. exists spec. split; [exact Hin|].
      unfold is_interactive in Hk. simpl in Hk.
      destruct (type spec); simpl in Hk; split; congruence.
    + intros (spec & Hin & Hh & Hl). exists (key, spec). split; [reflexivity|].
      apply filter_In. split; [exact Hin|].
      unfold is_interactive. simpl. destruct (type spec); simpl; congruence.
  - intros input_values Hlen Hdates.
    destruct (row_inv _ Hlen)
      as (v0 & v1 & v2 & v3 & v4 & v5 & v6 & v7 & v8 & v9 & v10 & v11 & v12
          & v13 & v14 & v15 & v16 & v17 & ->).
    destruct (dates_coercible_row _ _ _ _ _ _ _ _ _ _ _ _ _ _ _ _ _ _ Hdates)
      as (dfh & cd & H3 & H14).
    rewrite get_formated_values_row, H3, H14. simpl.
    eexists. split; reflexivity.
  - apply get_formated_values_keys.
Qed.

Lemma interactive_keys_of_coerced_map_witness :
  exists m, get_formated_values sample_row = Ok m
            /\ keys m = get_ordered_input_keys.
Proof.
  apply (proj1 (proj2 (proj2 interactive_keys_of_coerced_map)) sample_row);
    reflexivity.
Defined.

(** C9 as stated fails: a row of the right length whose date text does not
    parse yields no mapping at all. *)
Lemma right_length_row_without_map :
  List.length (with_value 3 (VStr "next week") sample_row)
  = List.length get_ordered_input_keys
  /\ get_formated_values (with_value 3 (VStr "next week") sample_row)
     = Raise (ValueError (DoesNotMatchFormat "next week" "%Y-%m-%d")).
Proof. split; reflexivity. Qed.

(** C4 (amended). A row whose length differs from the number of
    interactive keys is not rejected as such. With fewer values the call
    raises: a [KeyError] for a date or switch key that has no value, or
    before that the error of a date that does not coerce. With more values
    the surplus is dropped and the result is that of the first eighteen. *)
Theorem mismatched_row_length (input_values : list value) :
  List.length input_values <> List.length get_ordered_input_keys ->
  ((List.length input_values < List.length get_ordered_input_keys)%nat ->
   exists e,
     get_formated_values input_values = Raise e
     /\ ((exists key, e = KeyError key /\ raw_value input_values key = None)
         \/ (exists why, e = ValueError why)
         \/ (exists op, e = TypeError op)))
  /\ ((List.length get_ordered_input_keys < List.length input_values)%nat ->
      get_formated_values input_values
      = get_formated_values
          (firstn (List.length get_ordered_input_keys) input_values)).
Proof.
  intros _. split.
  - intros Hlt. destruct (short_row_raises _ Hlt) as [e He].
    exists e. split; [exact He|].
    rewrite get_formated_values_unfold in He.
    apply coerce_entries_Raise_inv in He.
    destruct He as [(key & -> & Hn)|(v & Hv)].
    + left. exists key. split; [reflexivity|].
      unfold raw_value. now rewrite <- initial_dict.
    + right. apply coerce_date_Raise_inv in Hv. exact Hv.
  - intros Hgt. apply long_row_truncated. lia.
Qed.

Lemma mismatched_row_length_witness :
  (exists e,
     get_formated_values (firstn 17 sample_row) = Raise e
     /\ ((exists key,
            e = KeyError key /\ raw_value (firstn 17 sample_row) key = None)
         \/ (exists why, e = ValueError why)
         \/ (exists op, e = TypeError op)))
  /\ get_formated_values (sample_row ++ [VInt 1])%list
     = get_formated_values sample_row.
Proof.
  split.
  - apply (mismatched_row_length (firstn 17 sample_row)); simpl; lia.
  - apply (mismatched_row_length (sample_row ++ [VInt 1])%list); simpl; lia.
Defined.

(** C4 as stated fails: nineteen values for eighteen keys are accepted, the
    last one silently dropped. *)
Lemma surplus_value_silently_dropped :
  List.length (sample_row ++ [VStr "surplus"])%list
  <> List.length get_ordered_input_keys
  /\ get_formated_values (sample_row ++ [VStr "surplus"])%list
     = get_formated_values sample_row
  /\ exists m, get_formated_values (sample_row ++ [VStr "surplus"])%list = Ok m.
Proof.
  split; [simpl; lia|]. split; [reflexivity|]. eexists. reflexivity.
Qed.

(** ** Dates: parsing an ISO text and printing it back *)

Lemma is_digit_In (c : ascii) : is_digit c = true -> In c digit_chars.
Proof.
  destruct c as [[] [] [] [] [] [] [] []]; intros H;
    try discriminate H; simpl; tauto.
Qed.

Lemma digit_value_range (c : ascii) :
  is_digit c = true -> 0 <= digit_value c <= 9.
Proof.
  intros H. apply is_digit_In in H. simpl in H.
  repeat (destruct H as [<-|H]; [vm_compute; split; discriminate|]).
  destruct H.
Qed.

Lemma format_0d_2_digits (a b : ascii) :
  is_digit a = true -> is_digit b = true ->
  format_0d 2 (10 * digit_value a + digit_value b) = String a (String b EmptyString).
Proof.
  intros Ha Hb.
  assert (H : forallb (fun a => forallb (fun b =>
              String.eqb (format_0d 2 (10 * digit_value a + digit_value b))
                         (String a (String b EmptyString))) digit_chars) digit_chars
              = true) by (vm_compute; reflexivity).
  rewrite forallb_forall in H. specialize (H a (is_digit_In a Ha)).
  rewrite forallb_forall in H. specialize (H b (is_digit_In b Hb)).
  now apply String.eqb_eq in H.
Qed.

Lemma format_0d_4_digits (a b c d : ascii) :
  is_digit a = true -> is_digit b = true ->
  is_digit c = true -> is_digit d = true ->
  format_0d 4 (1000 * digit_value a + 100 * digit_value b
               + 10 * digit_value c + digit_value d)
  = String a (String b (String c (String d EmptyString))).
Proof.
  intros Ha Hb Hc Hd.
  assert (H : forallb (fun a => forallb (fun b => forallb (fun c =>
              forallb (fun d =>
                String.eqb
                  (format_0d 4 (1000 * digit_value a + 100 * digit_value b
                                + 10 * digit_value c + digit_value d))
                  (String a (String b (String c (String d EmptyString)))))
              digit_chars) digit_chars) digit_chars) digit_chars = true)
    by (vm_compute; reflexivity).
  rewrite forallb_forall in H. specialize (H a (is_digit_In a Ha)).
  rewrite forallb_forall in H. specialize (H b (is_digit_In b Hb)).
  rewrite forallb_forall in H. specialize (H c (is_digit_In c Hc)).
  rewrite forallb_forall in H. specialize (H d (is_digit_In d Hd)).
  now apply String.eqb_eq in H.
Qed.

(** Two digits that spell a month are read by the month group, whatever
    follows. *)
Lemma re_m_two_digits (a b : ascii) (rest : string) :
  is_digit a = true -> is_digit b = true ->
  1 <= 10 * digit_value a + digit_value b <= 12 ->
  exists others,
    re_m (String a (String b rest))
    = (10 * digit_value a + digit_value b, rest) :: others.
Proof.
  intros Ha Hb Hr. apply is_digit_In in Ha, Hb. simpl in Ha, Hb.
  repeat (destruct Ha as [<-|Ha]; [|]); try (destruct Ha);
    repeat (destruct Hb as [<-|Hb]; [|]); try (destruct Hb);
    try (exfalso; vm_compute in Hr; destruct Hr as [H1 H2];
         (apply H1; reflexivity) || (apply H2; reflexivity));
    eexists; reflexivity.
Qed.

(** Two digits that spell a day are read by the day group. *)
Lemma re_d_two_digits (a b : ascii) (rest : string) :
  is_digit a = true -> is_digit b = true ->
  1 <= 10 * digit_value a + digit_value b <= 31 ->
  exists others,
    re_d (String a (String b rest))
    = (10 * digit_value a + digit_value b, rest) :: others.
Proof.
  intros Ha Hb Hr. apply is_digit_In in Ha, Hb. simpl in Ha, Hb.
  repeat (destruct Ha as [<-|Ha]; [|]); try (destruct Ha);
    repeat (destruct Hb as [<-|Hb]; [|]); try (destruct Hb);
    try (exfalso; vm_compute in Hr; destruct Hr as [H1 H2];
         (apply H1; reflexivity) || (apply H2; reflexivity));
    eexists; reflexivity.
Qed.

Lemma days_in_month_le_31 (year month : Z) : days_in_month year month <= 31.
Proof.
  unfold days_in_month.
  repeat match goal with
         | |- context [if ?b then _ else _] => destruct b
         end; lia.
Qed.

Ltac absurd_shape H := exfalso; exact (Bool.diff_false_true H).

Lemma is_iso_date_inv (s : string) :
  is_iso_date s = true ->
  exists y1 y2 y3 y4 m1 m2 d1 d2,
    s = String y1 (String y2 (String y3 (String y4 (String "-"
          (String m1 (String m2 (String "-" (String d1 (String d2
            EmptyString)))))))))
    /\ forallb is_digit [y1; y2; y3; y4; m1; m2; d1; d2] = true
    /\ 1 <= 1000 * digit_value y1 + 100 * digit_value y2
             + 10 * digit_value y3 + digit_value y4
    /\ 1 <= 10 * digit_value m1 + digit_value m2 <= 12
    /\ 1 <= 10 * digit_value d1 + digit_value d2
         <= days_in_month
              (1000 * digit_value y1 + 100 * digit_value y2
               + 10 * digit_value y3 + digit_value y4)
              (10 * digit_value m1 + digit_value m2).
Proof.
  intros H.
  destruct s as [|y1 s]; [absurd_shape H|].
  destruct s as [|y2 s]; [absurd_shape H|].
  destruct s as [|y3 s]; [absurd_shape H|].
  destruct s as [|y4 s]; [absurd_shape H|].
  destruct s as [|h1 s]; [absurd_shape H|].
  destruct h1 as [[] [] [] [] [] [] [] []]; try absurd_shape H.
  destruct s as [|m1 s]; [absurd_shape H|].
  destruct s as [|m2 s]; [absurd_shape H|].
  destruct s as [|h2 s]; [absurd_shape H|].
  destruct h2 as [[] [] [] [] [] [] [] []]; try absurd_shape H.
  destruct s as [|d1 s]; [absurd_shape H|].
  destruct s as [|d2 s]; [absurd_shape H|].
  destruct s as [|x s]; [|absurd_shape H].
  exists y1, y2, y3, y4, m1, m2, d1, d2. split; [reflexivity|].
  unfold is_iso_date in H. cbv zeta in H.
  rewrite !andb_true_iff, !Z.leb_le in H. tauto.
Qed.

(** An ISO date text parses to the day it names and that day prints back
    as the same text. *)
Lemma strptime_date_iso (s : string) :
  is_iso_date s = true ->
  exists year month day,
    strptime_date (VStr s) = Ok (VDate year month day)
    /\ isoformat year month day = s.
Proof.
  intros H. apply is_iso_date_inv in H.
  destruct H as (y1 & y2 & y3 & y4 & m1 & m2 & d1 & d2 & -> & Hdig & Hy
                 & Hm & Hd).
  cbn [forallb] in Hdig. rewrite !andb_true_iff in Hdig.
  destruct Hdig as (Hy1 & Hy2 & Hy3 & Hy4 & Hm1 & Hm2 & Hd1 & Hd2 & _).
  set (year := 1000 * digit_value y1 + 100 * digit_value y2
               + 10 * digit_value y3 + digit_value y4) in *.
  set (month := 10 * digit_value m1 + digit_value m2) in *.
  set (day := 10 * digit_value d1 + digit_value d2) in *.
  exists year, month, day. split.
  - assert (Hd31 := days_in_month_le_31 year month).
    destruct (re_m_two_digits m1 m2 (String "-" (String d1 (String d2 EmptyString)))
                Hm1 Hm2 Hm) as [om Hrm].
    destruct (re_d_two_digits d1 d2 EmptyString Hd1 Hd2) as [od Hrd];
      [fold day; lia|].
    unfold strptime_date, format_regex, re_Y.
    rewrite Hy1, Hy2, Hy3, Hy4.
    cbn [andb flat_map re_lit Ascii.eqb Bool.eqb app].
    rewrite Hrm. cbn [flat_map re_lit Ascii.eqb Bool.eqb app].
    rewrite Hrd. cbn [map app String.eqb negb].
    unfold date_new. fold year month day.
    assert (Hyr : 0 <= year <= 9999).
    { pose proof (digit_value_range _ Hy1). pose proof (digit_value_range _ Hy2).
      pose proof (digit_value_range _ Hy3). pose proof (digit_value_range _ Hy4).
      unfold year. lia. }
    replace ((1 <=? year) && (year <=? 9999)) with true
      by (symmetry; apply andb_true_iff; rewrite !Z.leb_le; lia).
    replace ((1 <=? month) && (month <=? 12)) with true
      by (symmetry; apply andb_true_iff; rewrite !Z.leb_le; lia).
    replace ((1 <=? day) && (day <=? days_in_month year month)) with true
      by (symmetry; apply andb_true_iff; rewrite !Z.leb_le; lia).
    reflexivity.
  - unfold isoformat, year, month, day.
    rewrite format_0d_4_digits, !format_0d_2_digits by assumption.
    reflexivity.
Qed.

Lemma is_iso_date_truthy (s : string) :
  is_iso_date s = true -> truthy (VStr s) = true.
Proof. destruct s; [discriminate | reflexivity]. Qed.

Lemma coerce_date_iso (s : string) :
  is_iso_date s = true ->
  exists year month day,
    coerce_date (VStr s) = Ok (VDate year month day)
    /\ isoformat year month day = s.
Proof.
  intros H. unfold coerce_date. rewrite (is_iso_date_truthy s H).
  apply strptime_date_iso, H.
Qed.

Lemma coerce_date_falsy (v : value) :
  truthy v = false -> coerce_date v = Ok v.
Proof. intros H. unfold coerce_date. now rewrite H. Qed.

Lemma coerce_date_iso_or_empty (v : value) :
  iso_or_empty v = true -> exists c, coerce_date v = Ok c.
Proof.
  destruct v; try discriminate; simpl.
  - intros _. eexists. reflexivity.
  - intros H. apply orb_true_iff in H. destruct H as [H|H].
    + apply String.eqb_eq in H. subst. eexists. reflexivity.
    + destruct (coerce_date_iso s H) as (y & m & d & Hc & _). eauto.
Qed.

Lemma dates_iso_or_empty_row
  (v0 v1 v2 v3 v4 v5 v6 v7 v8 v9 v10 v11 v12 v13 v14 v15 v16 v17 : value) :
  dates_iso_or_empty
    [v0; v1; v2; v3; v4; v5; v6; v7; v8; v9; v10; v11; v12; v13; v14; v15;
     v16; v17] = true ->
  iso_or_empty v3 = true /\ iso_or_empty v14 = true.
Proof.
  unfold dates_iso_or_empty. cbn -[iso_or_empty].
  rewrite !andb_true_iff. tauto.
Qed.

(** C6. For a row of the right length whose date-kind values are absent,
    empty or ISO [YYYY-MM-DD] texts, the coercion returns a mapping in which
    every date-kind field holds its raw value unchanged when that is empty or
    absent, and otherwise the calendar date its ISO text names, which prints
    back as that same text; so ["2021-03-15"] becomes the date 2021-03-15,
    whose [str] is ["2021-03-15"]. *)
Theorem date_fields_coerced
  (repr_float : float -> string) (repr_str : string -> string)
  (input_values : list value) :
  List.length input_values = List.length get_ordered_input_keys ->
  dates_iso_or_empty input_values = true ->
  exists m,
    get_formated_values input_values = Ok m
    /\ (forall key v,
          In key (keys_of_kind date) ->
          raw_value input_values key = Some v ->
          (truthy v = false -> get m key = Some v)
          /\ (forall s,
                v = VStr s -> is_iso_date s = true ->
                exists year month day,
                  get m key = Some (VDate year month day)
                  /\ py_str repr_float repr_str (VDate year month day) = s))
    /\ coerce_date (VStr "2021-03-15") = Ok (VDate 2021 3 15)
    /\ py_str repr_float repr_str (VDate 2021 3 15) = "2021-03-15".
Proof.
  intros Hlen Hdates.
  destruct (row_inv _ Hlen)
    as (v0 & v1 & v2 & v3 & v4 & v5 & v6 & v7 & v8 & v9 & v10 & v11 & v12
        & v13 & v14 & v15 & v16 & v17 & ->).
  apply dates_iso_or_empty_row in Hdates. destruct Hdates as [H3 H14].
  destruct (coerce_date_iso_or_empty _ H3) as [dfh Hdfh].
  destruct (coerce_date_iso_or_empty _ H14) as [cd Hcd].
  rewrite get_formated_values_row, Hdfh, Hcd. cbn [bind].
  eexists. split; [reflexivity|]. split; [|split; reflexivity].
  assert (Hrule : forall v c,
            coerce_date v = Ok c ->
            (truthy v = false -> c = v)
            /\ (forall s, v = VStr s -> is_iso_date s = true ->
                  exists year month day,
                    c = VDate year month day
                    /\ isoformat year month day = s)).
  { intros v c Hc. split.
    - intros Hf. rewrite (coerce_date_falsy v Hf) in Hc. congruence.
    - intros s -> Hs. destruct (coerce_date_iso s Hs) as (y & mo & d & Hy & Hi).
      exists y, mo, d. split; [congruence | exact Hi]. }
  intros key v [<-|[<-|[]]] Hraw; cbn in Hraw; inversion Hraw; subst v.
  - destruct (Hrule _ _ Hdfh) as [Hf Hi]. split.
    + intros Hv. cbn. now rewrite (Hf Hv).
    + intros s Hs Hiso. destruct (Hi s Hs Hiso) as (y & mo & d & -> & Hp).
      exists y, mo, d. split; [reflexivity | exact Hp].
  - destruct (Hrule _ _ Hcd) as [Hf Hi]. split.
    + intros Hv. cbn. now rewrite (Hf Hv).
    + intros s Hs Hiso. destruct (Hi s Hs Hiso) as (y & mo & d & -> & Hp).
      exists y, mo, d. split; [reflexivity | exact Hp].
Qed.

Lemma date_fields_coerced_witness :
  exists m,
    get_formated_values (with_value 3 VNone sample_row) = Ok m
    /\ (forall key v,
          In key (keys_of_kind date) ->
          raw_value (with_value 3 VNone sample_row) key = Some v ->
          (truthy v = false -> get m key = Some v)
          /\ (forall s,
                v = VStr s -> is_iso_date s = true ->
                exists year month day,
                  get m key = Some (VDate year month day)
                  /\ py_str float_placeholder text_unquoted
                       (VDate year month day) = s))
    /\ coerce_date (VStr "2021-03-15") = Ok (VDate 2021 3 15)
    /\ py_str float_placeholder text_unquoted (VDate 2021 3 15) = "2021-03-15".
Proof.
  apply (date_fields_coerced float_placeholder text_unquoted
           (with_value 3 VNone sample_row)); reflexivity.
Defined.

(** C8 (amended). When a date-kind field of a row of the right length holds
    a non-empty text that does not parse, the whole call raises and no
    mapping is returned: the coercion of the other fields is lost with it.
    The exception is a [ValueError] or, when the other date field holds a
    truthy value that is not text, that field's [TypeError]; when the text
    is in the first date field, or the first date field coerces, it is
    exactly the error [strptime] raises for the text alone, which is built
    from the text and the format and does not name the field. *)
Theorem unparseable_date_aborts
  (input_values : list value) (key : string) (s : string) :
  List.length input_values = List.length get_ordered_input_keys ->
  In key (keys_of_kind date) ->
  raw_value input_values key = Some (VStr s) ->
  s <> EmptyString ->
  parses s = false ->
  exists e,
    get_formated_values input_values = Raise e
    /\ ((exists why, e = ValueError why) \/ (exists op, e = TypeError op))
    /\ (key = "date_first_hospitalized"
        \/ (exists v c, raw_value input_values "date_first_hospitalized"
                          = Some v /\ coerce_date v = Ok c) ->
        strptime_date (VStr s) = Raise e).
Proof.
  intros Hlen Hkey Hraw Hne Hbad.
  destruct (row_inv _ Hlen)
    as (v0 & v1 & v2 & v3 & v4 & v5 & v6 & v7 & v8 & v9 & v10 & v11 & v12
        & v13 & v14 & v15 & v16 & v17 & ->).
  assert (Hs : coerce_date (VStr s) = strptime_date (VStr s)).
  { unfold coerce_date. simpl. destruct (String.eqb_spec s EmptyString); [tauto|].
    reflexivity. }
  unfold parses in Hbad.
  destruct (strptime_date (VStr s)) as [d|e] eqn:Hp; [discriminate|].
  assert (Hkind : (exists why, e = ValueError why)
                  \/ (exists op, e = TypeError op))
    by (eapply strptime_date_Raise_inv; eauto).
  rewrite get_formated_values_row.
  destruct Hkey as [<-|[<-|[]]]; cbn in Hraw; inversion Hraw; subst.
  - rewrite Hs. cbn [bind]. exists e. repeat split; auto.
  - destruct (coerce_date v3) as [c|e3] eqn:H3; cbn [bind].
    + rewrite Hs. cbn [bind]. exists e. repeat split; auto.
    + exists e3. split; [reflexivity|]. split.
      * eapply coerce_date_Raise_inv; eauto.
      * intros [Hk|(v & c & Hv & Hc)]; [discriminate Hk|].
        cbn in Hv. inversion Hv; subst. congruence.
Qed.

Lemma unparseable_date_aborts_witness :
  exists e,
    get_formated_values (with_value 14 (VStr "2021-02-30") sample_row)
    = Raise e
    /\ ((exists why, e = ValueError why) \/ (exists op, e = TypeError op))
    /\ ("current_date" = "date_first_hospitalized"
        \/ (exists v c,
              raw_value (with_value 14 (VStr "2021-02-30") sample_row)
                "date_first_hospitalized" = Some v
              /\ coerce_date v = Ok c) ->
        strptime_date (VStr "2021-02-30") = Raise e).
Proof.
  apply (unparseable_date_aborts
           (with_value 14 (VStr "2021-02-30") sample_row)
           "current_date" "2021-02-30").
  - reflexivity.
  - simpl. tauto.
  - reflexivity.
  - discriminate.
  - reflexivity.
Defined.

(** C8 as stated fails: the same unparseable text raises the same
    exception whether it sits in the first or in the second date field, so
    the exception does not tell the field; and in both cases the call
    returns no mapping, although every other value of the row is fine. *)
Lemma unparseable_date_error_names_no_key :
  get_formated_values (with_value 3 (VStr "next week") sample_row)
  = Raise (ValueError (DoesNotMatchFormat "next week" "%Y-%m-%d"))
  /\ get_formated_values (with_value 14 (VStr "next week") sample_row)
     = Raise (ValueError (DoesNotMatchFormat "next week" "%Y-%m-%d"))
  /\ exists m, get_formated_values sample_row = Ok m.
Proof. repeat split. eexists. reflexivity. Qed.

(** ** Switches: what compares equal to [[True]] *)

Lemma digits2_pos_size (m : positive) : digits2_pos m = Pos.size m.
Proof. induction m; simpl; congruence. Qed.

Lemma size_of_power_of_two (m : positive) (k : Z) :
  0 <= k -> Z.pos m = 2 ^ k -> Z.pos (Pos.size m) = k + 1.
Proof.
  intros Hk Hm.
  pose proof (Pos.size_gt m) as Hgt. pose proof (Pos.size_le m) as Hle.
  apply Pos2Z.pos_lt_pos in Hgt. apply Pos2Z.pos_le_pos in Hle.
  rewrite Pos2Z.inj_pow in Hgt, Hle.
  change (Z.pos m~0) with (2 * Z.pos m) in Hle.
  rewrite Hm in Hgt, Hle.
  assert (H1 : k < Z.pos (Pos.size m)).
  { apply (Z.pow_lt_mono_r_iff 2); lia. }
  assert (H2 : Z.pos (Pos.size m) <= k + 1).
  { apply (Z.pow_le_mono_r_iff 2); [lia | lia |].
    rewrite Z.pow_add_r, Z.pow_1_r by lia. lia. }
  lia.
Qed.

(** The only float that equals the integer 1 is [1.0]. *)
Lemma float_eq_int_1 (f : float) :
  float_eq_int f 1 = true <-> f = 1%float.
Proof.
  split; [|intros ->; vm_compute; reflexivity].
  unfold float_eq_int. intros H.
  pose proof (Prim2SF_valid f) as Hvalid.
  rewrite <- (SF2Prim_Prim2SF f).
  destruct (Prim2SF f) as [s|s| |s m e]; try discriminate H.
  unfold valid_binary, bounded, canonical_mantissa in Hvalid.
  apply andb_true_iff in Hvalid. destruct Hvalid as [Hcanon _].
  apply Z.eqb_eq in Hcanon. unfold fexp, emin in Hcanon.
  rewrite digits2_pos_size in Hcanon.
  change prec with 53 in Hcanon. change emax with 1024 in Hcanon.
  destruct (0 <=? e) eqn:He.
  - apply Z.leb_le in He. apply Z.eqb_eq in H.
    assert (Hp : 0 < 2 ^ e) by (apply Z.pow_pos_nonneg; lia).
    destruct s; [lia|].
    assert (Hm : Z.pos m = 1) by nia.
    assert (H2e : 2 ^ e = 1) by nia.
    inversion Hm; subst m. simpl in Hcanon.
    destruct (Z.eq_dec e 0) as [->|Hne]; [simpl in Hcanon; lia|].
    assert (2 ^ 1 <= 2 ^ e) by (apply Z.pow_le_mono_r; lia).
    simpl in *. lia.
  - apply Z.leb_gt in He. apply andb_true_iff in H. destruct H as [Hmod Hdiv].
    apply Z.eqb_eq in Hmod, Hdiv.
    assert (Hp : 0 < 2 ^ (- e)) by (apply Z.pow_pos_nonneg; lia).
    destruct s.
    + pose proof (Z.div_mod (Z.neg m) (2 ^ (- e))) as Hdm. lia.
    + pose proof (Z.div_mod (Z.pos m) (2 ^ (- e))) as Hdm.
      assert (Hm : Z.pos m = 2 ^ (- e)) by lia.
      pose proof (size_of_power_of_two m (- e) ltac:(lia) Hm) as Hsize.
      assert (e = -52) by lia. subst e.
      change (2 ^ (- -52)) with 4503599627370496 in Hm.
      inversion Hm; subst m. vm_compute. reflexivity.
Qed.

Lemma py_eq_list_True (v : value) :
  py_eq v (VList [VBool true]) = true <->
  exists x, v = VList [x]
            /\ (x = VBool true \/ x = VInt 1 \/ x = VFloat 1%float).
Proof.
  split.
  - destruct v as [|b|z|f|s|l|y m d]; try discriminate.
    destruct l as [|x [|y l]]; simpl; try discriminate.
    + rewrite andb_true_r. intros H. exists x. split; [reflexivity|].
      destruct x as [|b|z|f|s|l|y m d]; try discriminate H.
      * destruct b; [now left | discriminate H].
      * right; left. simpl in H. apply Z.eqb_eq in H. now subst.
      * right; right. simpl in H. apply float_eq_int_1 in H. now subst.
    + rewrite andb_false_r. discriminate.
  - intros (x & -> & [->|[->| ->]]); vm_compute; reflexivity.
Qed.

(** C3 (amended). For a row of the right length whose date-kind values
    coerce, every switch-kind field of the returned mapping is a boolean,
    and it is true exactly when the raw value compares equal to [[True]]
    under Python's [==]: a one-element list whose element is [True], the
    integer [1] or the float [1.0]. Every other raw value, the empty list
    included, gives false. *)
Theorem switch_fields_coerced (input_values : list value) :
  List.length input_values = List.length get_ordered_input_keys ->
  dates_coercible input_values = true ->
  exists m,
    get_formated_values input_values = Ok m
    /\ forall key v,
         In key (keys_of_kind switch) ->
         raw_value input_values key = Some v ->
         exists b,
           get m key = Some (VBool b)
           /\ (b = true <->
               exists x, v = VList [x]
                         /\ (x = VBool true \/ x = VInt 1
                             \/ x = VFloat 1%float))
           /\ (v = VList [VBool true] -> b = true)
           /\ (v = VList [] -> b = false).
Proof.
  intros Hlen Hdates.
  destruct (row_inv _ Hlen)
    as (v0 & v1 & v2 & v3 & v4 & v5 & v6 & v7 & v8 & v9 & v10 & v11 & v12
        & v13 & v14 & v15 & v16 & v17 & ->).
  destruct (dates_coercible_row _ _ _ _ _ _ _ _ _ _ _ _ _ _ _ _ _ _ Hdates)
    as (dfh & cd & H3 & H14).
  rewrite get_formated_values_row, H3, H14. cbn [bind].
  eexists. split; [reflexivity|].
  assert (Hrule : forall v,
            (py_eq v (VList [VBool true]) = true <->
             exists x, v = VList [x]
                       /\ (x = VBool true \/ x = VInt 1
                           \/ x = VFloat 1%float))
            /\ (v = VList [VBool true] -> py_eq v (VList [VBool true]) = true)
            /\ (v = VList [] -> py_eq v (VList [VBool true]) = false)).
  { intros v. split; [apply py_eq_list_True|].
    split; intros ->; reflexivity. }
  intros key v [<-|[<-|[]]] Hraw; cbn in Hraw; inversion Hraw; subst v;
    eexists; (split; [reflexivity | apply Hrule]).
Qed.

Lemma switch_fields_coerced_witness :
  exists m,
    get_formated_values sample_row = Ok m
    /\ forall key v,
         In key (keys_of_kind switch) ->
         raw_value sample_row key = Some v ->
         exists b,
           get m key = Some (VBool b)
           /\ (b = true <->
               exists x, v = VList [x]
                         /\ (x = VBool true \/ x = VInt 1
                             \/ x = VFloat 1%float))
           /\ (v = VList [VBool true] -> b = true)
           /\ (v = VList [] -> b = false).
Proof. apply (switch_fields_coerced sample_row); reflexivity. Defined.

(** C3 as stated fails: the raw value [[1]] is not [[True]], yet the switch
    is coerced to true. *)
Lemma switch_true_for_list_of_one :
  raw_value (with_value 16 (VList [VInt 1]) sample_row) "show_tables"
  = Some (VList [VInt 1])
  /\ VList [VInt 1] <> VList [VBool true]
  /\ exists m,
       get_formated_values (with_value 16 (VList [VInt 1]) sample_row) = Ok m
       /\ get m "show_tables" = Some (VBool true).
Proof.
  split; [reflexivity|]. split; [discriminate|].
  eexists. split; reflexivity.
Qed.

(** ** The parameter assembler *)

Lemma getitem_Ok_get (d : dict) (key : string) (v : value) :
  getitem d key = Ok v <-> get d key = Some v.
Proof.
  unfold getitem. destruct (get d key); split; intros H; congruence.
Qed.

Lemma getitem_setitem_same (d : dict) (k : string) (v : value) :
  getitem (setitem d k v) k = Ok v.
Proof. unfold getitem. now rewrite get_setitem_same. Qed.

Lemma getitem_setitem_other (d : dict) (k k' : string) (v : value) :
  k <> k' -> getitem (setitem d k v) k' = getitem d k'.
Proof. intros H. unfold getitem. now rewrite get_setitem_other. Qed.

Lemma get_default_setitem_other (d : dict) (k k' : string) (v dflt : value) :
  k <> k' -> get_default (setitem d k v) k' dflt = get_default d k' dflt.
Proof. intros H. unfold get_default. now rewrite get_setitem_other. Qed.

(** Every interactive key has a value in a coerced mapping. *)
Lemma getitem_coerced (input_values : list value) (m : dict) (key : string) :
  get_formated_values input_values = Ok m ->
  In key get_ordered_input_keys ->
  exists v, getitem m key = Ok v.
Proof.
  intros Hm Hin. apply get_formated_values_keys in Hm.
  unfold getitem. destruct (get m key) as [v|] eqn:E; [eauto|].
  apply get_None_not_In in E. rewrite Hm in E. contradiction.
Qed.

(** Takes the call apart, one argument expression after the other. *)
Ltac invert_kwargs H :=
  unfold update_parameters_kwargs in H;
  repeat (let a := fresh "a" in
          let Ha := fresh "Ha" in
          apply bind_Ok_inv in H; destruct H as (a & Ha & H));
  inversion H; subst; clear H; cbn [population current_hospitalized
    date_first_hospitalized doubling_time hospitalized icu infectious_days
    market_share n_days relative_contact_rate ventilated max_y_axis rate days].

Lemma update_parameters_unfold {Pars Serialized : Type}
  (Parameters : Parameters_kwargs -> res Pars)
  (parameters_serializer : Pars -> res Serialized)
  (input_values : list value) (m : dict) (kwargs : Parameters_kwargs) :
  get_formated_values input_values = Ok m ->
  update_parameters_kwargs m = Ok kwargs ->
  update_parameters Parameters parameters_serializer input_values
  = (pars <- Parameters kwargs ;;
     serialized <- parameters_serializer pars ;;
     Ok [serialized]).
Proof.
  intros Hm Hk. unfold update_parameters.
  rewrite Hm. cbn [bind]. rewrite Hk. reflexivity.
Qed.

Example doubling_time_given :
  update_parameters Parameters_record serializer_id sample_row
  = Ok [ {| population := VInt 3600000;
            current_hospitalized := VInt 69;
            date_first_hospitalized := VNone;
            doubling_time := VFloat 4.5%float;
            hospitalized := {| rate := VFloat 0.08%float; days := VInt 7 |};
            icu := {| rate := VFloat 0.0075%float; days := VInt 9 |};
            infectious_days := VInt 14;
            market_share := VFloat 0.15%float;
            n_days := VInt 30;
            relative_contact_rate := VFloat 0.3%float;
            ventilated := {| rate := VFloat 0.005%float; days := VInt 10 |};
            max_y_axis := VNone |} ].
Proof. vm_compute. reflexivity. Qed.

Example doubling_time_zero :
  update_parameters Parameters_record serializer_id
    (with_value 4 (VInt 0) sample_row)
  = Ok [ {| population := VInt 3600000;
            current_hospitalized := VInt 69;
            date_first_hospitalized := VDate 2020 3 1;
            doubling_time := VNone;
            hospitalized := {| rate := VFloat 0.08%float; days := VInt 7 |};
            icu := {| rate := VFloat 0.0075%float; days := VInt 9 |};
            infectious_days := VInt 14;
            market_share := VFloat 0.15%float;
            n_days := VInt 30;
            relative_contact_rate := VFloat 0.3%float;
            ventilated := {| rate := VFloat 0.005%float; days := VInt 10 |};
            max_y_axis := VNone |} ].
Proof. vm_compute. reflexivity. Qed.

Lemma percent_keys_eq :
  percent_keys
  = [ "market_share"; "relative_contact_rate"; "hospitalized_rate";
      "icu_rate"; "ventilated_rate" ].
Proof. reflexivity. Qed.

(** ** The download link *)

Section Link.

Variable repr_float : float -> string.
Variable repr_str : string -> string.

Local Abbreviation py_str := (py_str repr_float repr_str).
Local Abbreviation query_pairs := (query_pairs repr_float repr_str).

Lemma query_pairs_spec (d : dict) :
  query_pairs d = query_of_entries repr_float repr_str d.
Proof.
  unfold Sidebar.query_pairs, items.
  induction d as [|[key v] d IH]; [reflexivity|].
  cbn [filter map query_of_entries fst snd existsb].
  rewrite orb_false_r.
  destruct (String.eqb key "model" || String.eqb key "pars");
    cbn [negb andb]; [exact IH|].
  destruct v; cbn [is_None negb map fst snd]; rewrite <- ?IH; reflexivity.
Qed.

(** What is in the query: the entries that are neither transient nor
    null, and nothing else. *)
Lemma In_query_pairs (d : dict) (q : string) :
  In q (query_pairs d) <->
  exists key v,
    In (key, v) (items d) /\ key <> "model" /\ key <> "pars" /\ v <> VNone
    /\ q = key ++ "=" ++ py_str v.
Proof.
  unfold Sidebar.query_pairs. rewrite in_map_iff. split.
  - intros ([key v] & <- & Hin). apply filter_In in Hin.
    destruct Hin as [Hin Hf]. cbn [fst snd existsb] in Hf.
    rewrite orb_false_r in Hf.
    apply andb_true_iff in Hf. destruct Hf as [Hk Hv].
    apply negb_true_iff, orb_false_iff in Hk. destruct Hk as [Hk1 Hk2].
    apply String.eqb_neq in Hk1, Hk2.
    exists key, v. repeat split; auto.
    intros ->. discriminate Hv.
  - intros (key & v & Hin & Hk1 & Hk2 & Hv & ->).
    exists (key, v). split; [reflexivity|].
    apply filter_In. split; [exact Hin|].
    cbn [fst snd existsb]. apply String.eqb_neq in Hk1, Hk2.
    rewrite Hk1, Hk2. destruct v; try reflexivity. congruence.
Qed.

Lemma flat_map_ext_In {A B} (f g : A -> list B) (l : list A) :
  (forall a, In a l -> f a = g a) -> flat_map f l = flat_map g l.
Proof.
  induction l as [|a l IH]; intros H; [reflexivity|].
  simpl. rewrite (H a) by now left.
  rewrite IH; [reflexivity|]. intros b Hb. apply H. now right.
Qed.

(** Over distinct keys, walking the items is walking the keys. *)
Lemma query_pairs_by_keys (d : dict) :
  NoDup (keys d) ->
  (forall key, In key (keys d) -> key <> "model" /\ key <> "pars") ->
  query_pairs d
  = flat_map
      (fun key =>
         match get d key with
         | Some VNone | None => []
         | Some v => [key ++ "=" ++ py_str v]
         end)
      (keys d).
Proof.
  rewrite query_pairs_spec.
  induction d as [|[key v] d IH]; intros Hnd Hkeys; [reflexivity|].
  cbn [keys map fst] in Hnd. inversion Hnd as [|? ? Hnotin Hnd']; subst.
  destruct (Hkeys key) as [Hk1 Hk2]; [now left|].
  apply String.eqb_neq in Hk1, Hk2.
  cbn [query_of_entries keys map fst flat_map get]. rewrite Hk1, Hk2.
  rewrite String.eqb_refl. cbn [orb].
  rewrite IH; [|exact Hnd' | intros k Hk; apply Hkeys; now right].
  assert (Hrest :
    flat_map
      (fun key0 =>
         match (if String.eqb key key0 then Some v else get d key0) with
         | Some VNone | None => []
         | Some v0 => [key0 ++ "=" ++ py_str v0]
         end) (map fst d)
    = flat_map
        (fun key0 =>
           match get d key0 with
           | Some VNone | None => []
           | Some v0 => [key0 ++ "=" ++ py_str v0]
           end) (keys d)).
  { apply flat_map_ext_In. intros k Hk.
    destruct (String.eqb_spec key k) as [->|Hne]; [contradiction|].
    reflexivity. }
  rewrite Hrest. destruct v; reflexivity.
Qed.

Lemma interactive_keys_not_transient (key : string) :
  In key get_ordered_input_keys -> key <> "model" /\ key <> "pars".
Proof.
  rewrite get_ordered_input_keys_eq. simpl.
  intros H. repeat (destruct H as [<-|H]; [split; discriminate|]).
  destruct H.
Qed.

Lemma query_pairs_coerced (input_values : list value) (m : dict) :
  get_formated_values input_values = Ok m ->
  query_pairs m = query_in_table_order repr_float repr_str m.
Proof.
  intros Hm. apply get_formated_values_keys in Hm.
  unfold query_in_table_order. rewrite <- Hm.
  apply query_pairs_by_keys.
  - rewrite Hm. apply NoDup_get_ordered_input_keys.
  - rewrite Hm. apply interactive_keys_not_transient.
Qed.

End Link.

(** C7. The link is the base path, then [?], then the [key=value] pairs
    joined with [&]: one pair per entry of the mapping, in the order of the
    entries, without the transient keys [model] and [pars] and without the
    entries whose value is [None]. For a coerced mapping that order is the
    table order of the interactive keys. The mapping
    [{a: 1, b: None, c: "x"}] with base [/download] gives
    [/download?a=1&c=x]. *)
Theorem download_link_format
  (repr_float : float -> string) (repr_str : string -> string) :
  (forall base d,
     download_url repr_float repr_str base d
     = base ++ "?" ++ join "&" (query_of_entries repr_float repr_str d))
  /\ (forall input_values m,
        get_formated_values input_values = Ok m ->
        get_download_as_pdf_link repr_float repr_str input_values
        = Ok [ DOWNLOAD_AS_PDF_URL ++ "?"
               ++ join "&" (query_in_table_order repr_float repr_str m) ])
  /\ download_url repr_float repr_str "/download"
       [("a", VInt 1); ("b", VNone); ("c", VStr "x")]
     = "/download?a=1&c=x".
Proof.
  split; [|split].
  - intros base d. unfold download_url. now rewrite query_pairs_spec.
  - intros input_values m Hm. unfold get_download_as_pdf_link.
    rewrite Hm. cbn [bind]. unfold download_url.
    now rewrite (query_pairs_coerced _ _ input_values m Hm).
  - reflexivity.
Qed.

Lemma download_link_format_witness :
  get_download_as_pdf_link float_placeholder text_unquoted plain_row
  = Ok [ "/download-as-pdf?population=3600000&market_share=15"
         ++ "&current_hospitalized=69&date_first_hospitalized=2020-03-01"
         ++ "&relative_contact_rate=30&hospitalized_rate=8&icu_rate=1"
         ++ "&ventilated_rate=1&infectious_days=14&hospitalized_los=7"
         ++ "&icu_los=9&ventilated_los=10&n_days=30&current_date="
         ++ "&show_tables=False&show_tool_details=True" ].
Proof.
  exact (proj1 (proj2 (download_link_format float_placeholder text_unquoted))
           plain_row _ eq_refl).
Defined.



(** * Further properties of the callbacks *)

(** ** Values the coercion leaves alone *)

(** The loop writes only under the keys of its date and switch entries. *)
Lemma coerce_entries_untouched (entries : list (string * input_spec)) :
  forall d d' key,
    coerce_entries entries d = Ok d' ->
    (forall spec, In (key, spec) entries ->
                  type spec <> date /\ type spec <> switch) ->
    get d' key = get d key.
Proof.
  induction entries as [|[k s] entries IH]; intros d d' key H Hkey;
    simpl in H.
  - now inversion H.
  - assert (Hrest : forall spec, In (key, spec) entries ->
                      type spec <> date /\ type spec <> switch)
      by (intros spec Hin; apply Hkey; now right).
    assert (Hne : type s = date \/ type s = switch -> k <> key).
    { intros Hty ->. destruct (Hkey s) as [H1 H2]; [now left|].
      destruct Hty; contradiction. }
    destruct (type s) eqn:Ts; try (now apply IH).
    + inv_bind H. inv_bind H. rewrite (IH _ _ _ H Hrest).
      apply get_setitem_other. apply Hne. now left.
    + inv_bind H. rewrite (IH _ _ _ H Hrest).
      apply get_setitem_other. apply Hne. now right.
Qed.

(** X1. In every mapping the coercion returns, a key that is neither a
    date nor a switch of the table holds the raw value of the row at that
    key, unchanged: numbers are not parsed, rounded or defaulted. *)
Theorem number_fields_pass_through
  (input_values : list value) (m : dict) (key : string) :
  get_formated_values input_values = Ok m ->
  ~ In key (keys_of_kind date) ->
  ~ In key (keys_of_kind switch) ->
  get m key = raw_value input_values key.
Proof.
  intros Hm Hd Hs. rewrite get_formated_values_unfold in Hm.
  unfold raw_value. rewrite <- initial_dict.
  apply (coerce_entries_untouched _INPUTS _ _ key Hm).
  intros spec Hin. split; intros Hty.
  - apply Hd. unfold keys_of_kind. apply in_map_iff.
    exists (key, spec). split; [reflexivity|].
    apply filter_In. split; [exact Hin|]. simpl. now rewrite Hty.
  - apply Hs. unfold keys_of_kind. apply in_map_iff.
    exists (key, spec). split; [reflexivity|].
    apply filter_In. split; [exact Hin|]. simpl. now rewrite Hty.
Qed.

Lemma number_fields_pass_through_witness :
  exists m,
    get_formated_values sample_row = Ok m
    /\ get m "n_days" = raw_value sample_row "n_days"
    /\ raw_value sample_row "n_days" = Some (VInt 30).
Proof.
  eexists. split; [reflexivity|]. split; [|reflexivity].
  apply (number_fields_pass_through sample_row _ "n_days" eq_refl);
    simpl; intuition discriminate.
Defined.

(** ** Rows that are too short *)

(** X2. A row with fewer values than interactive keys, whose supplied
    date values coerce, fails with the [KeyError] of the first date or
    switch key, in table order, that has no value: the empty row and every
    row of up to three values are blamed on [date_first_hospitalized]. *)
Theorem short_row_KeyError (input_values : list value) :
  (List.length input_values < List.length get_ordered_input_keys)%nat ->
  supplied_dates_coercible input_values = true ->
  exists key,
    first_unsupplied input_values = Some key
    /\ get_formated_values input_values = Raise (KeyError key)
    /\ ((List.length input_values <= 3)%nat ->
        key = "date_first_hospitalized").
Proof.
  intros Hlen Hdates. rewrite get_formated_values_unfold.
  unfold first_unsupplied, supplied_dates_coercible in *.
  do 18 (destruct input_values as [|? input_values];
         [ cbn -[coerce_date coerce_switch] in *;
           repeat match goal with
                  | H : context [coerce_date ?v] |- _ =>
                      destruct (coerce_date v);
                      [cbn -[coerce_date coerce_switch] in * | discriminate H]
                  end;
           eexists; split; [reflexivity|]; split; [reflexivity|];
           intros Hle; first [reflexivity | exfalso; lia]
         | ]).
  simpl in Hlen. lia.
Qed.

Lemma short_row_KeyError_witness :
  exists key,
    first_unsupplied [] = Some key
    /\ get_formated_values [] = Raise (KeyError key)
    /\ ((List.length (@nil value) <= 3)%nat ->
        key = "date_first_hospitalized").
Proof. apply (short_row_KeyError []); [simpl; lia | reflexivity]. Defined.

(** ** A date that does not coerce stops both callbacks *)

Lemma failed_date_raises (input_values : list value) (key : string)
  (v : value) (e : exn) :
  List.length input_values = List.length get_ordered_input_keys ->
  In key (keys_of_kind date) ->
  raw_value input_values key = Some v ->
  coerce_date v = Raise e ->
  raises (get_formated_values input_values).
Proof.
  intros Hlen Hkey Hraw Hv.
  destruct (row_inv _ Hlen)
    as (v0 & v1 & v2 & v3 & v4 & v5 & v6 & v7 & v8 & v9 & v10 & v11 & v12
        & v13 & v14 & v15 & v16 & v17 & ->).
  rewrite get_formated_values_row.
  destruct Hkey as [<-|[<-|[]]]; cbn in Hraw; inversion Hraw; subst v.
  - rewrite Hv. eexists. reflexivity.
  - destruct (coerce_date v3); cbn [bind]; [|eexists; reflexivity].
    rewrite Hv. eexists. reflexivity.
Qed.

(** X3. When a date-kind value of a full row does not coerce, both
    callbacks raise, whatever the [Parameters] constructor and the
    serializer are: [update_parameters] does not reach the constructor,
    although it never passes [current_date] and drops
    [date_first_hospitalized] when a doubling time is given, and no link
    is built. *)
Theorem failed_date_stops_both_callbacks
  {Pars Serialized : Type}
  (Parameters : Parameters_kwargs -> res Pars)
  (parameters_serializer : Pars -> res Serialized)
  (repr_float : float -> string) (repr_str : string -> string)
  (input_values : list value) (key : string) (v : value) (e : exn) :
  List.length input_values = List.length get_ordered_input_keys ->
  In key (keys_of_kind date) ->
  raw_value input_values key = Some v ->
  coerce_date v = Raise e ->
  exists e',
    get_formated_values input_values = Raise e'
    /\ update_parameters Parameters parameters_serializer input_values
       = Raise e'
    /\ get_download_as_pdf_link repr_float repr_str input_values = Raise e'.
Proof.
  intros Hlen Hkey Hraw Hv.
  destruct (failed_date_raises _ _ _ _ Hlen Hkey Hraw Hv) as [e' He'].
  exists e'. unfold update_parameters, get_download_as_pdf_link.
  rewrite He'. repeat split.
Qed.

Lemma failed_date_stops_both_callbacks_witness :
  exists e',
    get_formated_values (with_value 14 (VStr "tomorrow") sample_row)
    = Raise e'
    /\ update_parameters Parameters_record serializer_id
         (with_value 14 (VStr "tomorrow") sample_row) = Raise e'
    /\ get_download_as_pdf_link float_placeholder text_unquoted
         (with_value 14 (VStr "tomorrow") sample_row) = Raise e'.
Proof.
  apply (failed_date_stops_both_callbacks Parameters_record serializer_id
           float_placeholder text_unquoted
           (with_value 14 (VStr "tomorrow") sample_row) "current_date"
           (VStr "tomorrow")
           (ValueError (DoesNotMatchFormat "tomorrow" "%Y-%m-%d"))).
  - reflexivity.
  - simpl. tauto.
  - reflexivity.
  - reflexivity.
Defined.

(** X4. In the first date field of a full row, a value that is not text
    is tested for truth only: a truthy one (a number, [True], a non-empty
    list) makes the coercion raise the [TypeError] of [strptime], a falsy
    one (zero, [False], the empty list, [None]) is kept as it is, and is
    what the returned mapping holds whenever [current_date] coerces. *)
Theorem non_text_date_value (input_values : list value) (v : value) :
  List.length input_values = List.length get_ordered_input_keys ->
  raw_value input_values "date_first_hospitalized" = Some v ->
  is_text v = false ->
  (truthy v = true ->
   coerce_date v = Raise (TypeError "strptime() argument 1 must be str")
   /\ get_formated_values input_values
      = Raise (TypeError "strptime() argument 1 must be str"))
  /\ (truthy v = false ->
      coerce_date v = Ok v
      /\ forall cd c,
           raw_value input_values "current_date" = Some cd ->
           coerce_date cd = Ok c ->
           exists m,
             get_formated_values input_values = Ok m
             /\ get m "date_first_hospitalized" = Some v).
Proof.
  intros Hlen Hraw Htext.
  destruct (row_inv _ Hlen)
    as (v0 & v1 & v2 & v3 & v4 & v5 & v6 & v7 & v8 & v9 & v10 & v11 & v12
        & v13 & v14 & v15 & v16 & v17 & ->).
  cbn in Hraw. inversion Hraw; subst v. split; intros Htruthy.
  - assert (Hv : coerce_date v3
                 = Raise (TypeError "strptime() argument 1 must be str")).
    { unfold coerce_date. rewrite Htruthy.
      destruct v3; try reflexivity; discriminate. }
    split; [exact Hv|].
    rewrite get_formated_values_row, Hv. reflexivity.
  - assert (Hv : coerce_date v3 = Ok v3)
      by (unfold coerce_date; now rewrite Htruthy).
    split; [exact Hv|].
    intros cd c Hcd Hc. cbn in Hcd. inversion Hcd; subst cd.
    rewrite get_formated_values_row, Hv, Hc. cbn [bind].
    eexists. split; reflexivity.
Qed.

Lemma non_text_date_value_witness :
  (coerce_date (VInt 20200301)
   = Raise (TypeError "strptime() argument 1 must be str")
   /\ get_formated_values (with_value 3 (VInt 20200301) sample_row)
      = Raise (TypeError "strptime() argument 1 must be str"))
  /\ (coerce_date (VInt 0) = Ok (VInt 0)
      /\ exists m,
           get_formated_values (with_value 3 (VInt 0) sample_row) = Ok m
           /\ get m "date_first_hospitalized" = Some (VInt 0)).
Proof.
  split.
  - apply (non_text_date_value
             (with_value 3 (VInt 20200301) sample_row) (VInt 20200301));
      reflexivity.
  - destruct (non_text_date_value
                (with_value 3 (VInt 0) sample_row) (VInt 0)
                eq_refl eq_refl eq_refl) as [_ H].
    destruct (H eq_refl) as [H0 Hm]. split; [exact H0|].
    apply (Hm (VStr "2021-03-15") (VDate 2021 3 15)); reflexivity.
Defined.

(** ** The whole of [update_parameters] on a row *)

(** The argument expressions on the mapping a full row coerces to. *)
Lemma update_parameters_kwargs_row
  (d0 d1 d2 d3 d4 d5 d6 d7 d8 d9 d10 d11 d12 d13 d14 d15 d16 d17 : value) :
  update_parameters_kwargs
    [ ("population", d0); ("market_share", d1);
      ("current_hospitalized", d2); ("date_first_hospitalized", d3);
      ("doubling_time", d4); ("relative_contact_rate", d5);
      ("hospitalized_rate", d6); ("icu_rate", d7);
      ("ventilated_rate", d8); ("infectious_days", d9);
      ("hospitalized_los", d10); ("icu_los", d11);
      ("ventilated_los", d12); ("n_days", d13); ("current_date", d14);
      ("max_y_axis_value", d15); ("show_tables", d16);
      ("show_tool_details", d17) ]
  = (hospitalized_rate <- truediv_100 d6 ;;
     icu_rate <- truediv_100 d7 ;;
     market_share_ <- truediv_100 d1 ;;
     relative_contact_rate_ <- truediv_100 d5 ;;
     ventilated_rate <- truediv_100 d8 ;;
     Ok {| population := d0;
           current_hospitalized := d2;
           date_first_hospitalized := if truthy d4 then VNone else d3;
           doubling_time := if truthy d4 then d4 else VNone;
           hospitalized := {| rate := hospitalized_rate; days := d10 |};
           icu := {| rate := icu_rate; days := d11 |};
           infectious_days := d9;
           market_share := market_share_;
           n_days := d13;
           relative_contact_rate := relative_contact_rate_;
           ventilated := {| rate := ventilated_rate; days := d12 |};
           max_y_axis := d15 |}).
Proof.
  unfold update_parameters_kwargs.
  cbn -[truediv_100 truthy].
  destruct (truthy d4) eqn:Ht; cbn -[truediv_100 truthy];
    rewrite ?Ht; cbn -[truediv_100 truthy]; reflexivity.
Qed.

(** X5. [update_parameters] on a full row, end to end: when the two
    dates coerce and the five percent values divide, the constructor
    receives the raw population, current hospitalizations, infectious days,
    lengths of stay, [n_days] and axis cap as submitted, the five rates
    divided by 100, and either the raw doubling time or the coerced first
    date; the result is what the constructor and the serializer return.
    [current_date] and the two switches do not enter. *)
Theorem update_parameters_row
  {Pars Serialized : Type}
  (Parameters : Parameters_kwargs -> res Pars)
  (parameters_serializer : Pars -> res Serialized)
  (v0 v1 v2 v3 v4 v5 v6 v7 v8 v9 v10 v11 v12 v13 v14 v15 v16 v17 : value)
  (dfh cd hr ir ms rc vr : value) :
  coerce_date v3 = Ok dfh ->
  coerce_date v14 = Ok cd ->
  truediv_100 v6 = Ok hr ->
  truediv_100 v7 = Ok ir ->
  truediv_100 v1 = Ok ms ->
  truediv_100 v5 = Ok rc ->
  truediv_100 v8 = Ok vr ->
  update_parameters Parameters parameters_serializer
    [v0; v1; v2; v3; v4; v5; v6; v7; v8; v9; v10; v11; v12; v13; v14; v15;
     v16; v17]
  = (pars <- Parameters
               {| population := v0;
                  current_hospitalized := v2;
                  date_first_hospitalized := if truthy v4 then VNone else dfh;
                  doubling_time := if truthy v4 then v4 else VNone;
                  hospitalized := {| rate := hr; days := v10 |};
                  icu := {| rate := ir; days := v11 |};
                  infectious_days := v9;
                  market_share := ms;
                  n_days := v13;
                  relative_contact_rate := rc;
                  ventilated := {| rate := vr; days := v12 |};
                  max_y_axis := v15 |} ;;
     serialized <- parameters_serializer pars ;;
     Ok [serialized]).
Proof.
  intros H3 H14 H6 H7 H1 H5 H8. unfold update_parameters.
  rewrite get_formated_values_row, H3, H14. cbn [bind].
  rewrite update_parameters_kwargs_row, H6, H7, H1, H5, H8. reflexivity.
Qed.

Lemma update_parameters_row_witness :
  update_parameters Parameters_record serializer_id
    [ VInt 3600000; VFloat 15%float; VInt 69; VStr "2020-03-01"; VInt 0;
      VFloat 30%float; VFloat 8%float; VFloat 0.75%float; VFloat 0.5%float;
      VInt 14; VInt 7; VInt 9; VInt 10; VInt 30; VNone; VNone; VList [];
      VList [VBool true] ]
  = (pars <- Parameters_record
               {| population := VInt 3600000;
                  current_hospitalized := VInt 69;
                  date_first_hospitalized :=
                    if truthy (VInt 0) then VNone else VDate 2020 3 1;
                  doubling_time :=
                    if truthy (VInt 0) then VInt 0 else VNone;
                  hospitalized :=
                    {| rate := VFloat 0.08%float; days := VInt 7 |};
                  icu := {| rate := VFloat 0.0075%float; days := VInt 9 |};
                  infectious_days := VInt 14;
                  market_share := VFloat 0.15%float;
                  n_days := VInt 30;
                  relative_contact_rate := VFloat 0.3%float;
                  ventilated :=
                    {| rate := VFloat 0.005%float; days := VInt 10 |};
                  max_y_axis := VNone |} ;;
     serialized <- serializer_id pars ;;
     Ok [serialized]).
Proof.
  apply (update_parameters_row Parameters_record serializer_id)
    with (cd := VNone); reflexivity.
Defined.

(** X6. The two switches never reach the parameters: replacing the raw
    value of [show_tables] or [show_tool_details] in a full row leaves the
    outcome of [update_parameters] as it was, exception or result. *)
Theorem update_parameters_ignores_switches
  {Pars Serialized : Type}
  (Parameters : Parameters_kwargs -> res Pars)
  (parameters_serializer : Pars -> res Serialized)
  (input_values : list value) (i : nat) (v : value) :
  List.length input_values = List.length get_ordered_input_keys ->
  nth_error get_ordered_input_keys i = Some "show_tables"
  \/ nth_error get_ordered_input_keys i = Some "show_tool_details" ->
  update_parameters Parameters parameters_serializer
    (with_value i v input_values)
  = update_parameters Parameters parameters_serializer input_values.
Proof.
  intros Hlen Hi.
  assert (Hcases : i = 16%nat \/ i = 17%nat).
  { do 18 (destruct i as [|i];
           [cbn in Hi; destruct Hi as [Hi|Hi];
            first [discriminate Hi | auto]|]).
    cbn in Hi. destruct i; destruct Hi; discriminate. }
  destruct (row_inv _ Hlen)
    as (v0 & v1 & v2 & v3 & v4 & v5 & v6 & v7 & v8 & v9 & v10 & v11 & v12
        & v13 & v14 & v15 & v16 & v17 & ->).
  unfold update_parameters.
  destruct Hcases as [-> | ->]; cbn [with_value];
    rewrite !get_formated_values_row;
    destruct (coerce_date v3); cbn [bind]; try reflexivity;
    destruct (coerce_date v14); cbn [bind]; try reflexivity;
    rewrite !update_parameters_kwargs_row; reflexivity.
Qed.

Lemma update_parameters_ignores_switches_witness :
  update_parameters Parameters_record serializer_id
    (with_value 16 (VList [VBool true]) sample_row)
  = update_parameters Parameters_record serializer_id sample_row.
Proof.
  apply (update_parameters_ignores_switches Parameters_record serializer_id
           sample_row 16 (VList [VBool true])).
  - reflexivity.
  - left. reflexivity.
Defined.

(** ** Percent values that are not numbers *)

Lemma truediv_100_Raise_inv (v : value) (e : exn) :
  truediv_100 v = Raise e -> e = TypeError "/" \/ e = OverflowError.
Proof.
  destruct v as [|b|z|f|s|l|y m d]; simpl;
    try (intros H; inversion H; auto; fail).
  - unfold int_truediv.
    destruct (SFdiv prec emax (SF_of_int (int_of_bool b)) (SF_of_int 100));
      simpl; intros H; inversion H; auto.
  - unfold int_truediv.
    destruct (SFdiv prec emax (SF_of_int z) (SF_of_int 100));
      simpl; intros H; inversion H; auto.
Qed.

Lemma truediv_100_not_number (v : value) :
  is_number v = false -> truediv_100 v = Raise (TypeError "/").
Proof. destruct v; try discriminate; reflexivity. Qed.

(** X7. When a percent field of a full row, with dates that coerce,
    holds a value that is not a number (a cleared input gives [None]),
    [update_parameters] raises before it calls the constructor: a
    [TypeError] for the division, or the [OverflowError] of an earlier
    percent value too large for a float. No default is put in its place. *)
Theorem percent_not_a_number_raises
  {Pars Serialized : Type}
  (Parameters : Parameters_kwargs -> res Pars)
  (parameters_serializer : Pars -> res Serialized)
  (input_values : list value) (key : string) (v : value) :
  List.length input_values = List.length get_ordered_input_keys ->
  dates_coercible input_values = true ->
  In key percent_keys ->
  raw_value input_values key = Some v ->
  is_number v = false ->
  exists e,
    update_parameters Parameters parameters_serializer input_values = Raise e
    /\ (e = TypeError "/" \/ e = OverflowError).
Proof.
  intros Hlen Hdates Hkey Hraw Hnum.
  destruct (row_inv _ Hlen)
    as (v0 & v1 & v2 & v3 & v4 & v5 & v6 & v7 & v8 & v9 & v10 & v11 & v12
        & v13 & v14 & v15 & v16 & v17 & ->).
  destruct (dates_coercible_row _ _ _ _ _ _ _ _ _ _ _ _ _ _ _ _ _ _ Hdates)
    as (dfh & cd & H3 & H14).
  unfold update_parameters.
  rewrite get_formated_values_row, H3, H14. cbn [bind].
  rewrite update_parameters_kwargs_row.
  apply truediv_100_not_number in Hnum.
  assert (Hstep : forall (w : value) (k : value -> res Parameters_kwargs),
            (forall a, exists e,
               (kwargs <- k a ;; pars <- Parameters kwargs ;;
                serialized <- parameters_serializer pars ;; Ok [serialized])
               = Raise e /\ (e = TypeError "/" \/ e = OverflowError)) ->
            exists e,
              (kwargs <- (a <- truediv_100 w ;; k a) ;;
               pars <- Parameters kwargs ;;
               serialized <- parameters_serializer pars ;; Ok [serialized])
              = Raise e /\ (e = TypeError "/" \/ e = OverflowError)).
  { intros w k Hk. destruct (truediv_100 w) as [a|e] eqn:Hw; cbn [bind].
    - apply Hk.
    - exists e. split; [reflexivity|]. eapply truediv_100_Raise_inv, Hw. }
  assert (Hbad : forall (k : value -> res Parameters_kwargs),
            exists e,
              (kwargs <- (a <- truediv_100 v ;; k a) ;;
               pars <- Parameters kwargs ;;
               serialized <- parameters_serializer pars ;; Ok [serialized])
              = Raise e /\ (e = TypeError "/" \/ e = OverflowError)).
  { intros k. rewrite Hnum. cbn [bind]. eauto. }
  rewrite percent_keys_eq in Hkey.
  destruct Hkey as [<-|[<-|[<-|[<-|[<-|[]]]]]];
    cbn in Hraw; inversion Hraw; subst v;
    repeat first [ apply Hbad | apply Hstep; intros ? ].
Qed.

Lemma percent_not_a_number_raises_witness :
  exists e,
    update_parameters Parameters_record serializer_id
      (with_value 7 VNone sample_row) = Raise e
    /\ (e = TypeError "/" \/ e = OverflowError).
Proof.
  apply (percent_not_a_number_raises Parameters_record serializer_id
           (with_value 7 VNone sample_row) "icu_rate" VNone).
  - reflexivity.
  - reflexivity.
  - simpl. tauto.
  - reflexivity.
  - reflexivity.
Defined.

(** X8. The five rates [update_parameters] hands to the constructor are
    always floats, also when the form sent integers or booleans: true
    division never returns anything else. *)
Theorem rates_are_floats (m : dict) (kwargs : Parameters_kwargs) :
  update_parameters_kwargs m = Ok kwargs ->
  exists market_share_ relative_contact_rate_ hospitalized_rate icu_rate
         ventilated_rate : float,
    market_share kwargs = VFloat market_share_
    /\ relative_contact_rate kwargs = VFloat relative_contact_rate_
    /\ rate (hospitalized kwargs) = VFloat hospitalized_rate
    /\ rate (icu kwargs) = VFloat icu_rate
    /\ rate (ventilated kwargs) = VFloat ventilated_rate.
Proof.
  intros Hk.
  assert (Hfloat : forall v r, truediv_100 v = Ok r -> exists f, r = VFloat f).
  { intros v r. destruct v as [|b|z|f|s|l|y mo d]; simpl;
      try discriminate.
    - destruct (int_truediv (int_of_bool b) 100); simpl; intros H;
        inversion H; eauto.
    - destruct (int_truediv z 100); simpl; intros H; inversion H; eauto.
    - intros H; inversion H; eauto. }
  invert_kwargs Hk.
  repeat match goal with
         | H : truediv_100 _ = Ok _ |- _ =>
             apply Hfloat in H; destruct H as [? ->]
         end.
  repeat eexists.
Qed.

Lemma rates_are_floats_witness :
  exists market_share_ relative_contact_rate_ hospitalized_rate icu_rate
         ventilated_rate : float,
    VFloat 0.15%float = VFloat market_share_
    /\ VFloat 0.3%float = VFloat relative_contact_rate_
    /\ VFloat 0.08%float = VFloat hospitalized_rate
    /\ VFloat 0.01%float = VFloat icu_rate
    /\ VFloat 0.01%float = VFloat ventilated_rate.
Proof.
  exact (rates_are_floats
           [ ("population", VInt 3600000); ("market_share", VInt 15);
             ("current_hospitalized", VInt 69);
             ("date_first_hospitalized", VDate 2020 3 1);
             ("doubling_time", VNone); ("relative_contact_rate", VInt 30);
             ("hospitalized_rate", VInt 8); ("icu_rate", VInt 1);
             ("ventilated_rate", VBool true); ("infectious_days", VInt 14);
             ("hospitalized_los", VInt 7); ("icu_los", VInt 9);
             ("ventilated_los", VInt 10); ("n_days", VInt 30) ]
           _ eq_refl).
Defined.

(** ** Dates printed and read back *)

Lemma In_Z_range (last z : Z) :
  1 <= z <= last ->
  In z (map Z.of_nat (seq 1 (Z.to_nat last))).
Proof.
  intros H. apply in_map_iff. exists (Z.to_nat z). split; [lia|].
  apply in_seq. lia.
Qed.

Lemma format_0d_4_inv (year : Z) :
  1 <= year <= 9999 ->
  exists a b c d,
    format_0d 4 year = String a (String b (String c (String d EmptyString)))
    /\ forallb is_digit [a; b; c; d] = true
    /\ 1000 * digit_value a + 100 * digit_value b + 10 * digit_value c
       + digit_value d = year.
Proof.
  intros Hy.
  pose (check := fun y =>
    match format_0d 4 y with
    | String a (String b (String c (String d EmptyString))) =>
        forallb is_digit [a; b; c; d]
        && (1000 * digit_value a + 100 * digit_value b + 10 * digit_value c
            + digit_value d =? y)
    | _ => false
    end).
  assert (H : forallb check (map Z.of_nat (seq 1 (Z.to_nat 9999))) = true)
    by (vm_compute; reflexivity).
  rewrite forallb_forall in H.
  specialize (H year (In_Z_range 9999 year Hy)).
  unfold check in H.
  destruct (format_0d 4 year) as [|a [|b [|c [|d [|x s]]]]];
    try discriminate H.
  apply andb_true_iff in H. destruct H as [Hd Hv]. apply Z.eqb_eq in Hv.
  exists a, b, c, d. auto.
Qed.

Lemma format_0d_2_inv (n : Z) :
  1 <= n <= 31 ->
  exists a b,
    format_0d 2 n = String a (String b EmptyString)
    /\ forallb is_digit [a; b] = true
    /\ 10 * digit_value a + digit_value b = n.
Proof.
  intros Hn.
  pose (check := fun n =>
    match format_0d 2 n with
    | String a (String b EmptyString) =>
        forallb is_digit [a; b]
        && (10 * digit_value a + digit_value b =? n)
    | _ => false
    end).
  assert (H : forallb check (map Z.of_nat (seq 1 (Z.to_nat 31))) = true)
    by (vm_compute; reflexivity).
  rewrite forallb_forall in H.
  specialize (H n (In_Z_range 31 n Hn)).
  unfold check in H.
  destruct (format_0d 2 n) as [|a [|b [|x s]]]; try discriminate H.
  apply andb_true_iff in H. destruct H as [Hd Hv]. apply Z.eqb_eq in Hv.
  exists a, b. auto.
Qed.

Lemma valid_date_inv (year month day : Z) :
  valid_date year month day = true ->
  1 <= year <= 9999 /\ 1 <= month <= 12
  /\ 1 <= day <= days_in_month year month.
Proof.
  unfold valid_date. rewrite !andb_true_iff, !Z.leb_le. tauto.
Qed.

Lemma date_new_valid (year month day : Z) :
  valid_date year month day = true ->
  date_new year month day = Ok (VDate year month day).
Proof.
  intros H. apply valid_date_inv in H. unfold date_new.
  replace ((1 <=? year) && (year <=? 9999)) with true
    by (symmetry; apply andb_true_iff; rewrite !Z.leb_le; lia).
  replace ((1 <=? month) && (month <=? 12)) with true
    by (symmetry; apply andb_true_iff; rewrite !Z.leb_le; lia).
  replace ((1 <=? day) && (day <=? days_in_month year month)) with true
    by (symmetry; apply andb_true_iff; rewrite !Z.leb_le; lia).
  reflexivity.
Qed.

Lemma date_new_Ok_inv (year month day : Z) (v : value) :
  date_new year month day = Ok v ->
  v = VDate year month day /\ valid_date year month day = true.
Proof.
  unfold date_new.
  destruct ((1 <=? year) && (year <=? 9999)) eqn:Hy; [|discriminate].
  destruct ((1 <=? month) && (month <=? 12)) eqn:Hm; [|discriminate].
  destruct ((1 <=? day) && (day <=? days_in_month year month)) eqn:Hd;
    [|discriminate].
  cbn [negb]. intros H. inversion H. split; [reflexivity|].
  unfold valid_date. apply andb_true_iff in Hy, Hm, Hd.
  rewrite !andb_true_iff. tauto.
Qed.

(** Ten characters of the ISO shape are read as the numbers they spell. *)
Lemma strptime_date_digits (y1 y2 y3 y4 m1 m2 d1 d2 : ascii) :
  forallb is_digit [y1; y2; y3; y4; m1; m2; d1; d2] = true ->
  1 <= 10 * digit_value m1 + digit_value m2 <= 12 ->
  1 <= 10 * digit_value d1 + digit_value d2 <= 31 ->
  strptime_date
    (VStr (String y1 (String y2 (String y3 (String y4 (String "-"
             (String m1 (String m2 (String "-" (String d1 (String d2
                EmptyString)))))))))))
  = date_new
      (1000 * digit_value y1 + 100 * digit_value y2 + 10 * digit_value y3
       + digit_value y4)
      (10 * digit_value m1 + digit_value m2)
      (10 * digit_value d1 + digit_value d2).
Proof.
  intros Hdig Hm Hd. cbn [forallb] in Hdig. rewrite !andb_true_iff in Hdig.
  destruct Hdig as (Hy1 & Hy2 & Hy3 & Hy4 & Hm1 & Hm2 & Hd1 & Hd2 & _).
  destruct (re_m_two_digits m1 m2
              (String "-" (String d1 (String d2 EmptyString))) Hm1 Hm2 Hm)
    as [om Hrm].
  destruct (re_d_two_digits d1 d2 EmptyString Hd1 Hd2 Hd) as [od Hrd].
  unfold strptime_date, format_regex, re_Y.
  rewrite Hy1, Hy2, Hy3, Hy4.
  cbn [andb flat_map re_lit Ascii.eqb Bool.eqb app].
  rewrite Hrm. cbn [flat_map re_lit Ascii.eqb Bool.eqb app].
  rewrite Hrd. cbn [map app String.eqb negb]. reflexivity.
Qed.

Lemma isoformat_shape (year month day : Z) :
  valid_date year month day = true ->
  exists y1 y2 y3 y4 m1 m2 d1 d2,
    isoformat year month day
    = String y1 (String y2 (String y3 (String y4 (String "-"
        (String m1 (String m2 (String "-" (String d1 (String d2
           EmptyString)))))))))
    /\ forallb is_digit [y1; y2; y3; y4; m1; m2; d1; d2] = true
    /\ 1000 * digit_value y1 + 100 * digit_value y2 + 10 * digit_value y3
       + digit_value y4 = year
    /\ 10 * digit_value m1 + digit_value m2 = month
    /\ 10 * digit_value d1 + digit_value d2 = day.
Proof.
  intros H. apply valid_date_inv in H. destruct H as (Hy & Hm & Hd).
  pose proof (days_in_month_le_31 year month) as H31.
  destruct (format_0d_4_inv year Hy) as (y1 & y2 & y3 & y4 & Ey & Dy & Vy).
  destruct (format_0d_2_inv month ltac:(lia)) as (m1 & m2 & Em & Dm & Vm).
  destruct (format_0d_2_inv day ltac:(lia)) as (d1 & d2 & Ed & Dd & Vd).
  exists y1, y2, y3, y4, m1, m2, d1, d2.
  unfold isoformat. rewrite Ey, Em, Ed.
  split; [reflexivity|]. split; [|auto].
  cbn [forallb] in *. rewrite !andb_true_iff in *. tauto.
Qed.

(** X9. Printing and reading back: for every day of the calendar (years
    1 to 9999) the text [str] gives for the date, which is what the link
    carries, is an ISO date text, and the coercion reads it back as the same
    date. *)
Theorem date_str_round_trip
  (repr_float : float -> string) (repr_str : string -> string)
  (year month day : Z) :
  valid_date year month day = true ->
  is_iso_date (py_str repr_float repr_str (VDate year month day)) = true
  /\ coerce_date (VStr (py_str repr_float repr_str (VDate year month day)))
     = Ok (VDate year month day).
Proof.
  intros Hvalid. cbn [py_str].
  destruct (isoformat_shape year month day Hvalid)
    as (y1 & y2 & y3 & y4 & m1 & m2 & d1 & d2 & -> & Hdig & Hy & Hm & Hd).
  pose proof (valid_date_inv _ _ _ Hvalid) as (Hyr & Hmr & Hdr).
  pose proof (days_in_month_le_31 year month) as H31.
  split.
  - unfold is_iso_date. cbv zeta. rewrite Hdig, Hy, Hm, Hd.
    unfold valid_date in Hvalid. rewrite !andb_true_iff in *.
    cbn [andb]. tauto.
  - unfold coerce_date. cbn [truthy String.eqb negb].
    rewrite strptime_date_digits by (auto; lia).
    rewrite Hy, Hm, Hd. apply date_new_valid, Hvalid.
Qed.

Lemma date_str_round_trip_witness :
  is_iso_date (py_str float_placeholder text_unquoted (VDate 2020 2 29))
  = true
  /\ coerce_date
       (VStr (py_str float_placeholder text_unquoted (VDate 2020 2 29)))
     = Ok (VDate 2020 2 29).
Proof.
  apply (date_str_round_trip float_placeholder text_unquoted 2020 2 29).
  reflexivity.
Defined.

(** X10. Whatever spelling the coercion accepted (["2021-3-5"] is read
    too), the date it returns is a day of the calendar, its [str] is an ISO
    date text, and coercing that text gives the same date again: the link
    always carries dates in ISO form and survives being submitted again. *)
Theorem coerced_date_is_normalised
  (repr_float : float -> string) (repr_str : string -> string)
  (v : value) (year month day : Z) :
  coerce_date v = Ok (VDate year month day) ->
  valid_date year month day = true
  /\ is_iso_date (py_str repr_float repr_str (VDate year month day)) = true
  /\ coerce_date (VStr (py_str repr_float repr_str (VDate year month day)))
     = Ok (VDate year month day).
Proof.
  intros Hc.
  assert (Hvalid : valid_date year month day = true).
  { unfold coerce_date in Hc. destruct (truthy v) eqn:Ht.
    - unfold strptime_date in Hc. destruct v; try discriminate Hc.
      destruct (format_regex s) as [|[[[y m] d] rest] l];
        [discriminate Hc|].
      destruct (negb (String.eqb rest EmptyString)); [discriminate Hc|].
      apply date_new_Ok_inv in Hc. destruct Hc as [Heq Hv].
      inversion Heq; subst. exact Hv.
    - inversion Hc; subst v. discriminate Ht. }
  split; [exact Hvalid|].
  apply date_str_round_trip, Hvalid.
Qed.

Lemma coerced_date_is_normalised_witness :
  valid_date 2021 3 5 = true
  /\ is_iso_date (py_str float_placeholder text_unquoted (VDate 2021 3 5))
     = true
  /\ coerce_date
       (VStr (py_str float_placeholder text_unquoted (VDate 2021 3 5)))
     = Ok (VDate 2021 3 5).
Proof.
  apply (coerced_date_is_normalised float_placeholder text_unquoted
           (VStr "2021-3-5") 2021 3 5).
  reflexivity.
Defined.

(** ** The link carries the form's own values *)

Lemma get_Some_In (d : dict) (key : string) (v : value) :
  get d key = Some v -> In (key, v) (items d).
Proof.
  unfold items. induction d as [|[k w] d IH]; simpl; [discriminate|].
  destruct (String.eqb_spec k key) as [->|Hne].
  - intros H. inversion H. now left.
  - intros H. right. now apply IH.
Qed.

(** X11. For a full row whose dates are absent, empty or ISO texts, the
    query of the link holds, for every number field that is not [None], the
    pair of its key and the [str] of the raw value itself (a percent field
    is not divided by 100 here), and for every date field sent as text the
    pair of its key and that very text. *)
Theorem link_shows_raw_values
  (repr_float : float -> string) (repr_str : string -> string)
  (input_values : list value) :
  List.length input_values = List.length get_ordered_input_keys ->
  dates_iso_or_empty input_values = true ->
  exists m,
    get_formated_values input_values = Ok m
    /\ (forall key v,
          In key (keys_of_kind number) ->
          raw_value input_values key = Some v ->
          v <> VNone ->
          In (key ++ "=" ++ py_str repr_float repr_str v)
            (query_pairs repr_float repr_str m))
    /\ (forall key s,
          In key (keys_of_kind date) ->
          raw_value input_values key = Some (VStr s) ->
          In (key ++ "=" ++ s) (query_pairs repr_float repr_str m)).
Proof.
  intros Hlen Hdates.
  destruct (row_inv _ Hlen)
    as (v0 & v1 & v2 & v3 & v4 & v5 & v6 & v7 & v8 & v9 & v10 & v11 & v12
        & v13 & v14 & v15 & v16 & v17 & ->).
  apply dates_iso_or_empty_row in Hdates. destruct Hdates as [H3 H14].
  destruct (coerce_date_iso_or_empty _ H3) as [dfh Hdfh].
  destruct (coerce_date_iso_or_empty _ H14) as [cd Hcd].
  rewrite get_formated_values_row, Hdfh, Hcd. cbn [bind].
  eexists. split; [reflexivity|].
  assert (Hpair : forall m key v,
            get m key = Some v -> v <> VNone ->
            key <> "model" -> key <> "pars" ->
            In (key ++ "=" ++ py_str repr_float repr_str v)
              (query_pairs repr_float repr_str m)).
  { intros m key v Hget Hv Hk1 Hk2. apply In_query_pairs.
    exists key, v. split; [apply get_Some_In, Hget|]. auto. }
  assert (Htext : forall s c,
            iso_or_empty (VStr s) = true -> coerce_date (VStr s) = Ok c ->
            c <> VNone /\ py_str repr_float repr_str c = s).
  { intros s c Hs Hc. simpl in Hs. apply orb_true_iff in Hs.
    destruct Hs as [Hs|Hs].
    - apply String.eqb_eq in Hs. subst s. cbn in Hc. inversion Hc; subst c.
      split; [discriminate | reflexivity].
    - destruct (coerce_date_iso s Hs) as (y & mo & d & Hy & Hi).
      rewrite Hy in Hc. inversion Hc; subst c.
      split; [discriminate | exact Hi]. }
  split.
  - intros key v Hkey Hraw Hv. simpl in Hkey.
    repeat (destruct Hkey as [<-|Hkey];
            [cbn in Hraw; inversion Hraw; subst v;
             apply Hpair; [reflexivity | exact Hv | discriminate
                          | discriminate]|]).
    destruct Hkey.
  - intros key s [<-|[<-|[]]] Hraw; cbn in Hraw; inversion Hraw; subst.
    + destruct (Htext s dfh H3 Hdfh) as [Hne Hstr]. rewrite <- Hstr at 1.
      apply Hpair; [reflexivity | exact Hne | discriminate | discriminate].
    + destruct (Htext s cd H14 Hcd) as [Hne Hstr]. rewrite <- Hstr at 1.
      apply Hpair; [reflexivity | exact Hne | discriminate | discriminate].
Qed.

Lemma link_shows_raw_values_witness :
  exists m,
    get_formated_values plain_row = Ok m
    /\ (forall key v,
          In key (keys_of_kind number) ->
          raw_value plain_row key = Some v ->
          v <> VNone ->
          In (key ++ "=" ++ py_str float_placeholder text_unquoted v)
            (query_pairs float_placeholder text_unquoted m))
    /\ (forall key s,
          In key (keys_of_kind date) ->
          raw_value plain_row key = Some (VStr s) ->
          In (key ++ "=" ++ s)
            (query_pairs float_placeholder text_unquoted m)).
Proof.
  apply (link_shows_raw_values float_placeholder text_unquoted plain_row);
    reflexivity.
Defined.

(** ** The callbacks and the order of the values *)

Lemma get_combine_nth (ks : list string) :
  forall (vs : list value) (i : nat) (k : string),
    NoDup ks -> nth_error ks i = Some k ->
    get (combine ks vs) k = nth_error vs i.
Proof.
  induction ks as [|a ks IH]; intros vs i k Hnd Hi.
  - destruct i; discriminate Hi.
  - inversion Hnd as [|? ? Ha Hnd']; subst.
    destruct i as [|i]; cbn in Hi.
    + inversion Hi; subst k. destruct vs as [|v vs]; [reflexivity|].
      cbn. now rewrite String.eqb_refl.
    + destruct vs as [|v vs]; [reflexivity|]. cbn.
      destruct (String.eqb_spec a k) as [->|Hne].
      * exfalso. apply Ha. eapply nth_error_In, Hi.
      * now apply IH.
Qed.

(** X12. The two callbacks [__init__] wires listen to the same widgets:
    the interactive keys, in the order of [get_ordered_input_keys]. So the
    value a callback receives in position [i] is the one
    [get_formated_values] reads as the raw value of the [i]-th of these
    keys (and a key beyond the end of a short row has none). The property
    read is [date] for a date widget and [value] for every other one,
    switches included. *)
Theorem callbacks_listen_in_key_order :
  (forall callback,
     In callback callbacks ->
     ChimeCallback.changed_elements callback = changed_elements)
  /\ map fst changed_elements = get_ordered_input_keys
  /\ (forall input_values i key property,
        nth_error changed_elements i = Some (key, property) ->
        raw_value input_values key = nth_error input_values i)
  /\ (forall key property,
        In (key, property) changed_elements ->
        exists spec,
          input_spec_of key = Some spec
          /\ property
             = if kind_eqb (type spec) date then "date" else "value").
Proof.
  split; [|split; [reflexivity|split]].
  - intros callback [<-|[<-|[]]]; reflexivity.
  - intros input_values i key property Hi. unfold raw_value.
    apply get_combine_nth; [apply NoDup_get_ordered_input_keys|].
    change get_ordered_input_keys with (map fst changed_elements).
    rewrite nth_error_map, Hi. reflexivity.
  - intros key property Hin. cbn in Hin.
    repeat (destruct Hin as [Hin|Hin];
            [inversion Hin; subst; eexists; split; reflexivity|]).
    destruct Hin.
Qed.

(** ** The hundredth of a percent value *)

Lemma truediv_100_hundredth (v : value) (f : float) :
  hundredth v = Some f -> truediv_100 v = Ok (VFloat f).
Proof.
  destruct v as [|b|z|g|s|l|y m d]; simpl; try discriminate.
  - unfold integer_hundredth, int_truediv.
    change (SF_of_int 100) with (S754_finite false 100 0).
    destruct b; cbn [int_of_bool SF_of_int];
      match goal with
      | |- context [SFdiv ?p ?e ?x ?y] => destruct (SFdiv p e x y)
      end; simpl; intros H; inversion H; reflexivity.
  - unfold integer_hundredth, int_truediv, SF_of_int.
    match goal with
    | |- context [SFdiv ?p ?e ?x ?y] => destruct (SFdiv p e x y)
    end; simpl; intros H; inversion H; reflexivity.
  - intros H. inversion H. reflexivity.
Qed.


(** On the integers a percent field can sensibly hold, and well around
    them, the hundredth is the float division of the integer taken as a
    float. *)
Lemma hundredth_of_small_int (z : Z) :
  -100 <= z <= 10000 ->
  hundredth (VInt z) = Some (float_of_small_int z / 100)%float.
Proof.
  intros Hz.
  pose (check := fun n : nat =>
    let z := Z.of_nat n - 100 in
    match hundredth (VInt z) with
    | Some f => Leibniz.eqb f (float_of_small_int z / 100)%float
    | None => false
    end).
  assert (H : forallb check (seq 0 (Z.to_nat 10101)) = true)
    by (vm_compute; reflexivity).
  rewrite forallb_forall in H.
  specialize (H (Z.to_nat (z + 100))).
  assert (Hin : In (Z.to_nat (z + 100)) (seq 0 (Z.to_nat 10101)))
    by (apply in_seq; lia).
  specialize (H Hin). unfold check in H. cbv zeta in H.
  replace (Z.of_nat (Z.to_nat (z + 100)) - 100) with z in H by lia.
  destruct (hundredth (VInt z)) as [f|]; [|discriminate H].
  apply FloatAxioms.Leibniz.eqb_spec in H. now subst.
Qed.

(** The mapping a callback works on is a full row of coerced values. *)
Lemma coerced_map_shape (input_values : list value) (m : dict) :
  get_formated_values input_values = Ok m ->
  exists d0 d1 d2 d3 d4 d5 d6 d7 d8 d9 d10 d11 d12 d13 d14 d15 d16 d17,
    m = [ ("population", d0); ("market_share", d1);
          ("current_hospitalized", d2); ("date_first_hospitalized", d3);
          ("doubling_time", d4); ("relative_contact_rate", d5);
          ("hospitalized_rate", d6); ("icu_rate", d7);
          ("ventilated_rate", d8); ("infectious_days", d9);
          ("hospitalized_los", d10); ("icu_los", d11);
          ("ventilated_los", d12); ("n_days", d13); ("current_date", d14);
          ("max_y_axis_value", d15); ("show_tables", d16);
          ("show_tool_details", d17) ].
Proof.
  intros Hm.
  destruct (Nat.lt_ge_cases (List.length input_values)
              (List.length get_ordered_input_keys)) as [Hlt|Hge].
  - exfalso. eapply raises_not_Ok; [apply short_row_raises, Hlt | exact Hm].
  - rewrite long_row_truncated in Hm by exact Hge.
    destruct (row_inv (firstn (List.length get_ordered_input_keys)
                         input_values))
      as (v0 & v1 & v2 & v3 & v4 & v5 & v6 & v7 & v8 & v9 & v10 & v11
          & v12 & v13 & v14 & v15 & v16 & v17 & Hrow).
    { rewrite length_firstn. lia. }
    rewrite Hrow, get_formated_values_row in Hm.
    destruct (coerce_date v3); [|discriminate Hm]. cbn [bind] in Hm.
    destruct (coerce_date v14); [|discriminate Hm]. cbn [bind] in Hm.
    inversion Hm. repeat eexists.
Qed.

(** ** What [update_parameters] hands to the constructor *)

(** C1 (amended). For every coerced mapping whose five percent values
    divide by 100, [update_parameters] reaches the [Parameters] call, and the
    two spread inputs it passes are settled by the coerced doubling time
    alone: when that is truthy it is passed and the date argument is [None],
    whatever the form holds for the date; when it is falsy (0, empty,
    [None]) the doubling-time argument is [None] and the coerced
    [date_first_hospitalized] is passed as it is. The two are never both
    set; neither is when the doubling time is falsy and the date is empty
    or absent. *)
Theorem spread_input_selection
  {Pars Serialized : Type}
  (Parameters : Parameters_kwargs -> res Pars)
  (parameters_serializer : Pars -> res Serialized)
  (input_values : list value) (m : dict) :
  get_formated_values input_values = Ok m ->
  percent_values_divide m = true ->
  exists kwargs dt dfh,
    update_parameters_kwargs m = Ok kwargs
    /\ update_parameters Parameters parameters_serializer input_values
       = (pars <- Parameters kwargs ;;
          serialized <- parameters_serializer pars ;;
          Ok [serialized])
    /\ get m "doubling_time" = Some dt
    /\ get m "date_first_hospitalized" = Some dfh
    /\ doubling_time kwargs = (if truthy dt then dt else VNone)
    /\ date_first_hospitalized kwargs = (if truthy dt then VNone else dfh)
    /\ (doubling_time kwargs = VNone
        \/ date_first_hospitalized kwargs = VNone).
Proof.
  intros Hm Hp.
  destruct (coerced_map_shape _ _ Hm)
    as (d0 & d1 & d2 & d3 & d4 & d5 & d6 & d7 & d8 & d9 & d10 & d11 & d12
        & d13 & d14 & d15 & d16 & d17 & ->).
  unfold percent_values_divide in Hp. cbn -[hundredth] in Hp.
  destruct (hundredth d1) as [f1|] eqn:H1; [|discriminate Hp].
  destruct (hundredth d5) as [f5|] eqn:H5; [|discriminate Hp].
  destruct (hundredth d6) as [f6|] eqn:H6; [|discriminate Hp].
  destruct (hundredth d7) as [f7|] eqn:H7; [|discriminate Hp].
  destruct (hundredth d8) as [f8|] eqn:H8; [|discriminate Hp].
  apply truediv_100_hundredth in H1, H5, H6, H7, H8.
  assert (Hk := update_parameters_kwargs_row
                  d0 d1 d2 d3 d4 d5 d6 d7 d8 d9 d10 d11 d12 d13 d14 d15 d16
                  d17).
  rewrite H6, H7, H1, H5, H8 in Hk. cbn [bind] in Hk.
  eexists. exists d4, d3. split; [exact Hk|].
  split; [apply (update_parameters_unfold _ _ _ _ _ Hm Hk)|].
  cbn [doubling_time date_first_hospitalized].
  repeat split. destruct (truthy d4); auto.
Qed.

Lemma spread_input_selection_witness :
  (exists kwargs dt dfh,
     update_parameters_kwargs sample_map = Ok kwargs
     /\ update_parameters Parameters_record serializer_id sample_row
        = (pars <- Parameters_record kwargs ;;
           serialized <- serializer_id pars ;;
           Ok [serialized])
     /\ get sample_map "doubling_time" = Some dt
     /\ get sample_map "date_first_hospitalized" = Some dfh
     /\ doubling_time kwargs = (if truthy dt then dt else VNone)
     /\ date_first_hospitalized kwargs = (if truthy dt then VNone else dfh)
     /\ (doubling_time kwargs = VNone
         \/ date_first_hospitalized kwargs = VNone))
  /\ (exists kwargs dt dfh,
        update_parameters_kwargs plain_map = Ok kwargs
        /\ update_parameters Parameters_record serializer_id plain_row
           = (pars <- Parameters_record kwargs ;;
              serialized <- serializer_id pars ;;
              Ok [serialized])
        /\ get plain_map "doubling_time" = Some dt
        /\ get plain_map "date_first_hospitalized" = Some dfh
        /\ doubling_time kwargs = (if truthy dt then dt else VNone)
        /\ date_first_hospitalized kwargs
           = (if truthy dt then VNone else dfh)
        /\ (doubling_time kwargs = VNone
            \/ date_first_hospitalized kwargs = VNone)).
Proof.
  split.
  - apply (spread_input_selection Parameters_record serializer_id
             sample_row sample_map); reflexivity.
  - apply (spread_input_selection Parameters_record serializer_id
             plain_row plain_map); reflexivity.
Defined.

Example spread_inputs_of_the_examples :
  (exists kwargs,
     update_parameters_kwargs sample_map = Ok kwargs
     /\ doubling_time kwargs = VFloat 4.5%float
     /\ date_first_hospitalized kwargs = VNone)
  /\ (exists kwargs,
        update_parameters_kwargs plain_map = Ok kwargs
        /\ doubling_time kwargs = VNone
        /\ date_first_hospitalized kwargs = VDate 2020 3 1).
Proof. split; eexists; (split; [vm_compute; reflexivity|]); split; reflexivity. Qed.

(** C1 as stated fails: with a doubling time of 0 and no first date the
    row coerces, the arguments are built, and neither of the two spread
    inputs is set: both are passed as [None]. *)
Lemma neither_spread_input_is_passed :
  get_formated_values no_spread_row = Ok no_spread_map
  /\ get no_spread_map "doubling_time" = Some (VInt 0)
  /\ get no_spread_map "date_first_hospitalized" = Some VNone
  /\ exists kwargs,
       update_parameters_kwargs no_spread_map = Ok kwargs
       /\ doubling_time kwargs = VNone
       /\ date_first_hospitalized kwargs = VNone.
Proof.
  split; [reflexivity|]. split; [reflexivity|]. split; [reflexivity|].
  eexists. split; [vm_compute; reflexivity|]. split; reflexivity.
Qed.

(** C2 (amended). For every coerced mapping whose five percent values
    have a hundredth (they are floats, or integers or booleans whose
    quotient by 100 fits a float), [update_parameters] reaches the
    [Parameters] call and passes, for [market_share],
    [relative_contact_rate] and the rates of the three dispositions, the
    float that is the coerced value divided by 100, while the three lengths
    of stay are the coerced values themselves. The hundredth of a float [f]
    is [f / 100], so 8.0 gives 0.08; of an integer from -100 to 10000 it is
    the float of the integer divided by 100; of [True] it is 0.01. *)
Theorem percent_fields_as_hundredths
  {Pars Serialized : Type}
  (Parameters : Parameters_kwargs -> res Pars)
  (parameters_serializer : Pars -> res Serialized)
  (input_values : list value) (m : dict) :
  get_formated_values input_values = Ok m ->
  percent_values_divide m = true ->
  (exists kwargs,
     update_parameters_kwargs m = Ok kwargs
     /\ update_parameters Parameters parameters_serializer input_values
        = (pars <- Parameters kwargs ;;
           serialized <- parameters_serializer pars ;;
           Ok [serialized])
     /\ (exists v f, get m "market_share" = Some v
                     /\ hundredth v = Some f
                     /\ market_share kwargs = VFloat f)
     /\ (exists v f, get m "relative_contact_rate" = Some v
                     /\ hundredth v = Some f
                     /\ relative_contact_rate kwargs = VFloat f)
     /\ (exists v f, get m "hospitalized_rate" = Some v
                     /\ hundredth v = Some f
                     /\ rate (hospitalized kwargs) = VFloat f)
     /\ (exists v f, get m "icu_rate" = Some v
                     /\ hundredth v = Some f
                     /\ rate (icu kwargs) = VFloat f)
     /\ (exists v f, get m "ventilated_rate" = Some v
                     /\ hundredth v = Some f
                     /\ rate (ventilated kwargs) = VFloat f)
     /\ get m "hospitalized_los" = Some (days (hospitalized kwargs))
     /\ get m "icu_los" = Some (days (icu kwargs))
     /\ get m "ventilated_los" = Some (days (ventilated kwargs)))
  /\ (forall f, hundredth (VFloat f) = Some (f / 100)%float)
  /\ hundredth (VFloat 8%float) = Some 0.08%float
  /\ (forall z, -100 <= z <= 10000 ->
                hundredth (VInt z) = Some (float_of_small_int z / 100)%float)
  /\ hundredth (VInt 8) = Some 0.08%float
  /\ hundredth (VBool true) = Some 0.01%float
  /\ hundredth (VBool false) = Some 0%float.
Proof.
  intros Hm Hp. split.
  - destruct (coerced_map_shape _ _ Hm)
      as (d0 & d1 & d2 & d3 & d4 & d5 & d6 & d7 & d8 & d9 & d10 & d11 & d12
          & d13 & d14 & d15 & d16 & d17 & ->).
    unfold percent_values_divide in Hp. cbn -[hundredth] in Hp.
    destruct (hundredth d1) as [f1|] eqn:H1; [|discriminate Hp].
    destruct (hundredth d5) as [f5|] eqn:H5; [|discriminate Hp].
    destruct (hundredth d6) as [f6|] eqn:H6; [|discriminate Hp].
    destruct (hundredth d7) as [f7|] eqn:H7; [|discriminate Hp].
    destruct (hundredth d8) as [f8|] eqn:H8; [|discriminate Hp].
    assert (Hk := update_parameters_kwargs_row
                    d0 d1 d2 d3 d4 d5 d6 d7 d8 d9 d10 d11 d12 d13 d14 d15
                    d16 d17).
    rewrite (truediv_100_hundredth _ _ H6), (truediv_100_hundredth _ _ H7),
      (truediv_100_hundredth _ _ H1), (truediv_100_hundredth _ _ H5),
      (truediv_100_hundredth _ _ H8) in Hk.
    cbn [bind] in Hk.
    eexists. split; [exact Hk|].
    split; [apply (update_parameters_unfold _ _ _ _ _ Hm Hk)|].
    cbn [market_share relative_contact_rate hospitalized icu ventilated
         rate days].
    repeat split; try (eexists; eexists; repeat split; eauto; fail).
  - split; [reflexivity|]. split; [reflexivity|].
    split; [exact hundredth_of_small_int|].
    split; [vm_compute; reflexivity|].
    split; vm_compute; reflexivity.
Qed.

Lemma percent_fields_as_hundredths_witness :
  (exists kwargs,
     update_parameters_kwargs plain_map = Ok kwargs
     /\ update_parameters Parameters_record serializer_id plain_row
        = (pars <- Parameters_record kwargs ;;
           serialized <- serializer_id pars ;;
           Ok [serialized])
     /\ (exists v f, get plain_map "market_share" = Some v
                     /\ hundredth v = Some f
                     /\ market_share kwargs = VFloat f)
     /\ (exists v f, get plain_map "relative_contact_rate" = Some v
                     /\ hundredth v = Some f
                     /\ relative_contact_rate kwargs = VFloat f)
     /\ (exists v f, get plain_map "hospitalized_rate" = Some v
                     /\ hundredth v = Some f
                     /\ rate (hospitalized kwargs) = VFloat f)
     /\ (exists v f, get plain_map "icu_rate" = Some v
                     /\ hundredth v = Some f
                     /\ rate (icu kwargs) = VFloat f)
     /\ (exists v f, get plain_map "ventilated_rate" = Some v
                     /\ hundredth v = Some f
                     /\ rate (ventilated kwargs) = VFloat f)
     /\ get plain_map "hospitalized_los" = Some (days (hospitalized kwargs))
     /\ get plain_map "icu_los" = Some (days (icu kwargs))
     /\ get plain_map "ventilated_los" = Some (days (ventilated kwargs)))
  /\ (exists kwargs,
        update_parameters_kwargs sample_map = Ok kwargs
        /\ update_parameters Parameters_record serializer_id sample_row
           = (pars <- Parameters_record kwargs ;;
              serialized <- serializer_id pars ;;
              Ok [serialized])
        /\ (exists v f, get sample_map "market_share" = Some v
                        /\ hundredth v = Some f
                        /\ market_share kwargs = VFloat f)
        /\ (exists v f, get sample_map "relative_contact_rate" = Some v
                        /\ hundredth v = Some f
                        /\ relative_contact_rate kwargs = VFloat f)
        /\ (exists v f, get sample_map "hospitalized_rate" = Some v
                        /\ hundredth v = Some f
                        /\ rate (hospitalized kwargs) = VFloat f)
        /\ (exists v f, get sample_map "icu_rate" = Some v
                        /\ hundredth v = Some f
                        /\ rate (icu kwargs) = VFloat f)
        /\ (exists v f, get sample_map "ventilated_rate" = Some v
                        /\ hundredth v = Some f
                        /\ rate (ventilated kwargs) = VFloat f)
        /\ get sample_map "hospitalized_los"
           = Some (days (hospitalized kwargs))
        /\ get sample_map "icu_los" = Some (days (icu kwargs))
        /\ get sample_map "ventilated_los"
           = Some (days (ventilated kwargs))).
Proof.
  split.
  - apply (percent_fields_as_hundredths Parameters_record serializer_id
             plain_row plain_map); reflexivity.
  - apply (percent_fields_as_hundredths Parameters_record serializer_id
             sample_row sample_map); reflexivity.
Defined.

Example hundredths_of_the_examples :
  update_parameters Parameters_record serializer_id plain_row
  = Ok [ {| population := VInt 3600000;
            current_hospitalized := VInt 69;
            date_first_hospitalized := VDate 2020 3 1;
            doubling_time := VNone;
            hospitalized := {| rate := VFloat 0.08%float; days := VInt 7 |};
            icu := {| rate := VFloat 0.01%float; days := VInt 9 |};
            infectious_days := VInt 14;
            market_share := VFloat 0.15%float;
            n_days := VInt 30;
            relative_contact_rate := VFloat 0.3%float;
            ventilated := {| rate := VFloat 0.01%float; days := VInt 10 |};
            max_y_axis := VNone |} ].
Proof. vm_compute. reflexivity. Qed.

(** C2 as stated fails: a coerced mapping whose [icu_rate] is [None] (the
    input was cleared) has nothing divided and nothing placed in a
    Parameter Object: the division raises [TypeError] before the
    constructor is called. *)
Lemma percent_None_is_not_divided :
  exists m,
    get_formated_values (with_value 7 VNone sample_row) = Ok m
    /\ get m "icu_rate" = Some VNone
    /\ update_parameters_kwargs m = Raise (TypeError "/").
Proof.
  eexists. split; [reflexivity|]. split; [reflexivity|].
  vm_compute. reflexivity.
Qed.



